(** * siws: the Sign-in message model of [siws/siws.py]

    A shallow embedding of [SiwsMessage]: construction with its field
    validators, the canonical serializer [prepare_message] and the
    verifier [verify], followed by the properties the specification
    states about them.

    Python [str] values are modelled by [string]; a character of the model
    stands for one code point below 256. *)

From Stdlib Require Import String Ascii ZArith List Bool Lia.
From Stdlib.Strings Require Import Byte.
Import ListNotations.
Open Scope string_scope.
Open Scope Z_scope.

(* ================================================================== *)
(** ** The Python runtime the source relies on *)

Module Py.

(** [sep.join(parts)] *)
Fixpoint join (sep : string) (parts : list string) : string :=
  match parts with
  | [] => ""
  | [x] => x
  | x :: rest => x ++ sep ++ join sep rest
  end.

(** Truthiness, as [if x:] and [x and y] / [x or y] test it. *)
Definition truthy_str (s : string) : bool := negb (String.eqb s "").
Definition truthy_int (n : Z) : bool := negb (n =? 0).
Definition truthy_list {A} (l : list A) : bool :=
  match l with [] => false | _ :: _ => true end.
Definition truthy_opt {A} (truthy : A -> bool) (o : option A) : bool :=
  match o with None => false | Some a => truthy a end.

(** [x or y] on integers *)
Definition or_int (x y : Z) : Z := if truthy_int x then x else y.

(** [str(n)] for an [int]. *)
Definition digit (d : Z) : ascii := ascii_of_nat (48 + Z.to_nat d).

Fixpoint digits (fuel : nat) (n : Z) (acc : string) : string :=
  match fuel with
  | O => acc
  | S fuel' =>
      let acc' := String (digit (n mod 10)) acc in
      if n / 10 =? 0 then acc' else digits fuel' (n / 10) acc'
  end.

Definition str_nat (n : Z) : string :=
  digits (S (Z.to_nat (Z.log2 n))) n "".

Definition str_int (n : Z) : string :=
  if n <? 0 then "-" ++ str_nat (- n) else str_nat n.

(** [int(s)] for the text of an [int]: the digits by their position. *)
Definition digit_value (c : ascii) : Z := Z.of_nat (nat_of_ascii c) - 48.

Fixpoint int_nat (s : string) : Z :=
  match s with
  | "" => 0
  | String c rest =>
      digit_value c * 10 ^ Z.of_nat (String.length rest) + int_nat rest
  end.

Definition int_str (s : string) : Z :=
  match s with
  | String "-" rest => - int_nat rest
  | _ => int_nat s
  end.

(** [format(n, "0{width}d")] for a non-negative [n]. *)
Fixpoint zeros (k : nat) : string :=
  match k with O => "" | S k' => String "0" (zeros k') end.

Definition zfill (width : nat) (s : string) : string :=
  zeros (width - String.length s) ++ s.

(** [s.split("\n")] *)
Definition newline : ascii := "010"%char.
Definition nl : string := String newline "".

Fixpoint split_lines (s : string) : list string :=
  match s with
  | "" => [""]
  | String c rest =>
      if Ascii.eqb c newline then "" :: split_lines rest
      else match split_lines rest with
           | [] => [String c ""]
           | l :: ls => String c l :: ls
           end
  end.

(** [str.encode()]: UTF-8, on the code points the model has. *)
Definition encode_char (c : ascii) : list byte :=
  let n := N_of_ascii c in
  if (n <? 128)%N then [byte_of_ascii c]
  else match Byte.of_N (192 + N.shiftr n 6), Byte.of_N (128 + N.land n 63) with
       | Some hi, Some lo => [hi; lo]
       | _, _ => []
       end.

Fixpoint encode (s : string) : list byte :=
  match s with
  | "" => []
  | String c rest => (encode_char c ++ encode rest)%list
  end.

End Py.

(* ------------------------------------------------------------------ *)
(** *** [datetime.datetime]: naive and aware values, their ordering, and
    [isoformat] *)

(** The fields of a datetime without [tzinfo]: what [datetime.utcnow()]
    returns. *)
Record naive_datetime : Type := mk_datetime {
  year : Z; month : Z; day : Z;
  hour : Z; minute : Z; second : Z; microsecond : Z
}.

(** A datetime object: naive, or aware with the offset of its [tzinfo]
    from UTC, in seconds. *)
Inductive datetime : Type :=
| Naive (t : naive_datetime)
| Aware (t : naive_datetime) (utcoffset : Z).

Definition then_cmp (c1 c2 : comparison) : comparison :=
  match c1 with Eq => c2 | _ => c1 end.

(** [datetime._cmp] of two naive values: the fields compared as a tuple. *)
Definition naive_cmp (a b : naive_datetime) : comparison :=
  then_cmp (year a ?= year b)
 (then_cmp (month a ?= month b)
 (then_cmp (day a ?= day b)
 (then_cmp (hour a ?= hour b)
 (then_cmp (minute a ?= minute b)
 (then_cmp (second a ?= second b)
           (microsecond a ?= microsecond b)))))).

(** [_ymd2ord]: the day number of a date, 1 for 1 January of year 1. *)
Definition is_leap (y : Z) : bool :=
  (y mod 4 =? 0) && (negb (y mod 100 =? 0) || (y mod 400 =? 0)).

Definition days_before_year (y : Z) : Z :=
  let y := y - 1 in y * 365 + y / 4 - y / 100 + y / 400.

Definition days_before_month (y m : Z) : Z :=
  nth (Z.to_nat m) [-1; 0; 31; 59; 90; 120; 151; 181; 212; 243; 273; 304; 334] 0
  + (if (2 <? m) && is_leap y then 1 else 0).

Definition ymd2ord (y m d : Z) : Z :=
  days_before_year y + days_before_month y m + d.

(** The instant of an aware value, in microseconds on the UTC line. *)
Definition utc_microseconds (t : naive_datetime) (utcoffset : Z) : Z :=
  (((ymd2ord (year t) (month t) (day t) * 24 + hour t) * 60 + minute t) * 60
   + second t - utcoffset) * 1000000 + microsecond t.

(** [datetime._cmp]: naive values by their fields, aware values by their
    instants; [None] is the [TypeError] of a naive value against an aware
    one. *)
Definition datetime_cmp (a b : datetime) : option comparison :=
  match a, b with
  | Naive x, Naive y => Some (naive_cmp x y)
  | Aware x ox, Aware y oy =>
      Some (utc_microseconds x ox ?= utc_microseconds y oy)
  | _, _ => None
  end.

Definition isoformat (d : naive_datetime) : string :=
  Py.zfill 4 (Py.str_int (year d)) ++ "-" ++
  Py.zfill 2 (Py.str_int (month d)) ++ "-" ++
  Py.zfill 2 (Py.str_int (day d)) ++ "T" ++
  Py.zfill 2 (Py.str_int (hour d)) ++ ":" ++
  Py.zfill 2 (Py.str_int (minute d)) ++ ":" ++
  Py.zfill 2 (Py.str_int (second d)) ++
  (if Py.truthy_int (microsecond d)
   then "." ++ Py.zfill 6 (Py.str_int (microsecond d)) else "").

(* ------------------------------------------------------------------ *)
(** *** Regular expressions, as [Field(pattern=...)] needs them

    A pattern is matched by its derivatives.  Both patterns of the source
    are of the form [^...$], which makes the validator's search a match of
    the whole string. *)

Module Re.

Inductive regex : Type :=
| Empty                          (* matches nothing *)
| Eps                            (* the empty string *)
| NoneOf (cs : list ascii)       (* [^cs] *)
| Alt (a b : regex)
| Cat (a b : regex)
| Star (a : regex).

(** [a+] *)
Definition Plus (a : regex) : regex := Cat a (Star a).

Definition mem (c : ascii) (cs : list ascii) : bool :=
  existsb (Ascii.eqb c) cs.

Fixpoint nullable (r : regex) : bool :=
  match r with
  | Empty => false
  | Eps => true
  | NoneOf _ => false
  | Alt a b => nullable a || nullable b
  | Cat a b => nullable a && nullable b
  | Star _ => true
  end.

Fixpoint deriv (r : regex) (c : ascii) : regex :=
  match r with
  | Empty => Empty
  | Eps => Empty
  | NoneOf cs => if mem c cs then Empty else Eps
  | Alt a b => Alt (deriv a c) (deriv b c)
  | Cat a b =>
      if nullable a then Alt (Cat (deriv a c) b) (deriv b c)
      else Cat (deriv a c) b
  | Star a => Cat (deriv a c) (Star a)
  end.

Fixpoint fullmatch (r : regex) (s : string) : bool :=
  match s with
  | "" => nullable r
  | String c rest => fullmatch (deriv r c) rest
  end.

(** No character of [s] is in [cs]. *)
Fixpoint free_of (cs : list ascii) (s : string) : bool :=
  match s with
  | "" => true
  | String c rest => negb (mem c cs) && free_of cs rest
  end.

(** The patterns of the form [^[^cs]+$] and the like, read from their
    text: a sequence of negated classes, each with [+], [*] or nothing. *)
Fixpoint read_class (s : string) : option (list ascii * string) :=
  match s with
  | "" => None
  | String "]" rest => Some ([], rest)
  | String c rest =>
      match read_class rest with
      | Some (cs, rest') => Some (c :: cs, rest')
      | None => None
      end
  end.

Definition seq (a : regex) (b : option regex) : option regex :=
  match b with
  | Some Eps => Some a
  | Some b => Some (Cat a b)
  | None => None
  end.

Fixpoint compile_seq (fuel : nat) (s : string) : option regex :=
  match fuel with
  | O => None
  | S fuel =>
      match s with
      | "$" => Some Eps
      | String "[" (String "^" rest) =>
          match read_class rest with
          | Some (cs, String "+" rest') =>
              seq (Plus (NoneOf cs)) (compile_seq fuel rest')
          | Some (cs, String "*" rest') =>
              seq (Star (NoneOf cs)) (compile_seq fuel rest')
          | Some (cs, rest') => seq (NoneOf cs) (compile_seq fuel rest')
          | None => None
          end
      | _ => None
      end
  end.

Definition compile (pattern : string) : option regex :=
  match pattern with
  | String "^" rest => compile_seq (String.length rest) rest
  | _ => None
  end.

(** What a pattern denotes. *)
Inductive matches : regex -> string -> Prop :=
| m_eps : matches Eps ""
| m_none_of cs c : mem c cs = false -> matches (NoneOf cs) (String c "")
| m_alt_l a b s : matches a s -> matches (Alt a b) s
| m_alt_r a b s : matches b s -> matches (Alt a b) s
| m_cat a b s1 s2 : matches a s1 -> matches b s2 -> matches (Cat a b) (s1 ++ s2)
| m_star_nil a : matches (Star a) ""
| m_star_cons a s1 s2 :
    matches a s1 -> matches (Star a) s2 -> matches (Star a) (s1 ++ s2).

End Re.

(* ------------------------------------------------------------------ *)
(** *** The [base58] codec ([base58.b58decode], Bitcoin alphabet)

    [None] stands for the [ValueError] the codec raises. *)

Module Base58.

Definition alphabet : string :=
  "123456789ABCDEFGHJKLMNPQRSTUVWXYZabcdefghijkmnopqrstuvwxyz".

Fixpoint index_from (i : Z) (c : ascii) (s : string) : option Z :=
  match s with
  | "" => None
  | String a rest => if Ascii.eqb a c then Some i else index_from (i + 1) c rest
  end.

(** [str.isspace] on one character *)
Definition isspace (c : ascii) : bool :=
  let n := Z.of_N (N_of_ascii c) in
  ((9 <=? n) && (n <=? 13)) || ((28 <=? n) && (n <=? 32))
  || (n =? 133) || (n =? 160).

(** [v.rstrip()] *)
Fixpoint rstrip (s : string) : string :=
  match s with
  | "" => ""
  | String c rest =>
      match rstrip rest with
      | "" => if isspace c then "" else String c ""
      | rest' => String c rest'
      end
  end.

(** [v.lstrip(alphabet[0:1])] *)
Fixpoint lstrip_ones (s : string) : string :=
  match s with
  | String "1" rest => lstrip_ones rest
  | _ => s
  end.

(** [scrub_input]: [v.encode('ascii')] *)
Fixpoint scrub_input (s : string) : option string :=
  match s with
  | "" => Some ""
  | String c rest =>
      if (N_of_ascii c <? 128)%N
      then option_map (String c) (scrub_input rest) else None
  end.

Fixpoint b58decode_int_from (decimal : Z) (v : string) : option Z :=
  match v with
  | "" => Some decimal
  | String c rest =>
      match index_from 0 c alphabet with
      | Some d => b58decode_int_from (decimal * 58 + d) rest
      | None => None
      end
  end.

Definition b58decode_int (v : string) : option Z := b58decode_int_from 0 v.

Definition bit_length (n : Z) : Z := if n =? 0 then 0 else Z.log2 n + 1.

Definition byte_of_Z (n : Z) : byte := byte_of_ascii (ascii_of_N (Z.to_N n)).

(** [n.to_bytes(len, 'big')], least significant byte first into [acc] *)
Fixpoint to_bytes (len : nat) (n : Z) (acc : list byte) : list byte :=
  match len with
  | O => acc
  | S len' => to_bytes len' (n / 256) (byte_of_Z (n mod 256) :: acc)
  end.

Definition b58decode (v : string) : option (list byte) :=
  match scrub_input (rstrip v) with
  | None => None
  | Some v =>
      let origlen := Z.of_nat (String.length v) in
      let v := lstrip_ones v in
      let newlen := Z.of_nat (String.length v) in
      match b58decode_int v with
      | None => None
      | Some acc =>
          Some (to_bytes (Z.to_nat (origlen - newlen + (bit_length acc + 7) / 8))
                         acc [])
      end
  end.

End Base58.

(* ================================================================== *)
(** ** The message model *)

(** Modelled from the spec: the class [siws.custom_types.CustomDateTime],
    whose source is missing.  The specification calls the three date
    fields canonical timestamps and wants a serialized message to parse
    back to the same fields; the source renders a value in f-strings and
    reads its instant through [.date].  A value keeps its text (what
    [str()] gives) and its instant. *)
Record CustomDateTime : Type := mk_CustomDateTime {
  text : string;
  date : datetime
}.

(** [issued_at] holds a [CustomDateTime] after construction and the plain
    [str] of [isoformat()] after the default-fill of [prepare_message]. *)
Inductive issued_at_value : Type :=
| IssuedCustom (c : CustomDateTime)
| IssuedStr (s : string).

Definition str_issued_at (v : issued_at_value) : string :=
  match v with
  | IssuedCustom c => text c
  | IssuedStr s => s
  end.

(** A validated [AnyUrl], by what [str()] gives for it. *)
Definition AnyUrl : Type := string.

Record SiwsMessage : Type := mk_SiwsMessage {
  domain : string;
  address : string;
  uri : string;
  version : string;
  chain_id : Z;
  issued_at : option issued_at_value;
  nonce : string;
  statement : option string;
  expiration_time : option CustomDateTime;
  not_before : option CustomDateTime;
  request_id : option string;
  resources : option (list AnyUrl)
}.

(** [self.issued_at = v] *)
Definition set_issued_at (m : SiwsMessage) (v : issued_at_value) : SiwsMessage :=
  {| domain := domain m; address := address m; uri := uri m;
     version := version m; chain_id := chain_id m;
     issued_at := Some v;
     nonce := nonce m; statement := statement m;
     expiration_time := expiration_time m; not_before := not_before m;
     request_id := request_id m; resources := resources m |}.

(** The mapping handed to [super().__init__] as keywords: one entry per
    field, [None] when the key is absent (or, for an [Optional] field,
    when its value is [None]); values have the Python type the field
    declares. *)
Record RawFields : Type := mk_RawFields {
  raw_domain : option string;
  raw_address : option string;
  raw_uri : option string;
  raw_version : option string;
  raw_chain_id : option Z;
  raw_issued_at : option string;
  raw_nonce : option string;
  raw_statement : option string;
  raw_expiration_time : option string;
  raw_not_before : option string;
  raw_request_id : option string;
  raw_resources : option (list string)
}.

(** Records that differ from a given one in one field. *)
Definition set_domain (m : SiwsMessage) (v : string) : SiwsMessage :=
  {| domain := v; address := address m; uri := uri m;
     version := version m; chain_id := chain_id m;
     issued_at := issued_at m;
     nonce := nonce m; statement := statement m;
     expiration_time := expiration_time m; not_before := not_before m;
     request_id := request_id m; resources := resources m |}.

Definition set_nonce (m : SiwsMessage) (v : string) : SiwsMessage :=
  {| domain := domain m; address := address m; uri := uri m;
     version := version m; chain_id := chain_id m;
     issued_at := issued_at m;
     nonce := v; statement := statement m;
     expiration_time := expiration_time m; not_before := not_before m;
     request_id := request_id m; resources := resources m |}.

Definition set_chain_id (m : SiwsMessage) (v : Z) : SiwsMessage :=
  {| domain := domain m; address := address m; uri := uri m;
     version := version m; chain_id := v;
     issued_at := issued_at m;
     nonce := nonce m; statement := statement m;
     expiration_time := expiration_time m; not_before := not_before m;
     request_id := request_id m; resources := resources m |}.

Definition with_domain (d : RawFields) (v : string) : RawFields :=
  {| raw_domain := Some v; raw_address := raw_address d; raw_uri := raw_uri d;
     raw_version := raw_version d; raw_chain_id := raw_chain_id d;
     raw_issued_at := raw_issued_at d;
     raw_nonce := raw_nonce d; raw_statement := raw_statement d;
     raw_expiration_time := raw_expiration_time d;
     raw_not_before := raw_not_before d;
     raw_request_id := raw_request_id d; raw_resources := raw_resources d |}.

Definition with_nonce (d : RawFields) (v : string) : RawFields :=
  {| raw_domain := raw_domain d; raw_address := raw_address d;
     raw_uri := raw_uri d;
     raw_version := raw_version d; raw_chain_id := raw_chain_id d;
     raw_issued_at := raw_issued_at d;
     raw_nonce := Some v; raw_statement := raw_statement d;
     raw_expiration_time := raw_expiration_time d;
     raw_not_before := raw_not_before d;
     raw_request_id := raw_request_id d; raw_resources := raw_resources d |}.

(** What can be passed as [message] to the constructor. *)
Inductive py_value : Type :=
| PyStr (s : string)
| PyDict (d : RawFields)
| PyNone
| PyBool (b : bool)
| PyInt (n : Z)
| PyBytes (b : list byte).

Definition isinstance_str (v : py_value) : bool :=
  match v with PyStr _ => true | _ => false end.
Definition isinstance_dict (v : py_value) : bool :=
  match v with PyDict _ => true | _ => false end.

(* ------------------------------------------------------------------ *)
(** *** Exceptions *)

Inductive field : Type :=
| f_domain | f_address | f_uri | f_version | f_chain_id | f_issued_at
| f_nonce | f_statement | f_expiration_time | f_not_before | f_request_id
| f_resources.

(** The error types of a pydantic [ValidationError]. *)
Inductive error_type : Type :=
| missing
| string_pattern_mismatch
| string_too_short
| too_short
| greater_than_equal
| url_parsing
| value_error.

Definition error : Type := (field * error_type)%type.

Inductive exn : Type :=
| TypeError
| ValueError
| ParsingError
| ValidationError (errors : list error)
| BadSignatureError
| DomainMismatch
| NonceMismatch
| ExpiredMessage
| NotYetValidMessage
| InvalidSignature
  (** named by the specification only; the source never raises it *)
| MalformedAddressOrSignature.

Inductive result (A : Type) : Type :=
| Ok (a : A)
| Raise (e : exn).
Arguments Ok {A} a.
Arguments Raise {A} e.

(* ------------------------------------------------------------------ *)
(** *** Collaborators

    The libraries and modules the source calls and that are taken as
    given: pydantic's URL validator, the validator of [CustomDateTime],
    the two parsers of [siws.parsed] and the Ed25519 primitive behind
    [nacl.signing.VerifyKey.verify]. *)
Class Collaborators : Type := {
  (** [AnyUrlTypeAdapter.validate_python]: [str()] of the URL, or invalid *)
  any_url : string -> option AnyUrl;
  (** the instant a [CustomDateTime] text denotes, or invalid *)
  parse_datetime : string -> option datetime;
  (** [ABNFParsedMessage(message=...).__dict__] *)
  ABNFParsedMessage : string -> result RawFields;
  (** [RegExpParsedMessage(message=...).__dict__] *)
  RegExpParsedMessage : string -> result RawFields;
  (** [crypto_sign_open]: public key, message, signature *)
  crypto_sign_open : list byte -> list byte -> list byte -> bool
}.

(** [a >= b] and [a <= b] of two datetimes: [TypeError] when one is
    naive and the other aware. *)
Definition datetime_ge (a b : datetime) : result bool :=
  match datetime_cmp a b with
  | Some Lt => Ok false
  | Some _ => Ok true
  | None => Raise TypeError
  end.

Definition datetime_le (a b : datetime) : result bool :=
  match datetime_cmp a b with
  | Some Gt => Ok false
  | Some _ => Ok true
  | None => Raise TypeError
  end.

(** Modelled from the spec: [t >= c] for a [CustomDateTime] [c] of the
    missing [siws.custom_types].  The value is the text of a timestamp
    that carries its datetime in [.date] (the not-before line reads it);
    it is no datetime itself, and a datetime is ordered against datetimes
    only: the comparison with the value, which is what the expiration
    line writes, raises [TypeError]. *)
Definition datetime_ge_custom (t : datetime) (c : CustomDateTime)
  : result bool :=
  Raise TypeError.

(** Modelled from the spec: a [CustomDateTime] is a timestamp value and has
    no falsy instance. *)
Definition truthy_custom (c : CustomDateTime) : bool := true.

(* ------------------------------------------------------------------ *)
(** *** Field validators and construction *)

(** The outcome of validating one field, or several: the errors found, or
    the value. *)
Definition checked (A : Type) : Type := (list error + A)%type.

Definition pass {A} (a : A) : checked A := inr a.
Definition fail {A} (f : field) (t : error_type) : checked A := inl [(f, t)].

Definition errors_of {A} (c : checked A) : list error :=
  match c with inl es => es | inr _ => [] end.

(** pydantic reports the errors of all fields, in field order. *)
Definition ap {A B} (cf : checked (A -> B)) (ca : checked A) : checked B :=
  match cf, ca with
  | inr f, inr a => inr (f a)
  | _, _ => inl (errors_of cf ++ errors_of ca)%list
  end.
Infix "<*>" := ap (at level 61, left associativity).

Definition required {A B} (f : field) (v : option A) (k : A -> checked B)
  : checked B :=
  match v with
  | None => fail f missing
  | Some a => k a
  end.

Definition optional {A B} (v : option A) (k : A -> checked B)
  : checked (option B) :=
  match v with
  | None => pass None
  | Some a => match k a with inl es => inl es | inr b => inr (Some b) end
  end.

(** [Field(pattern="^[^/?#]+$")] *)
Definition domain_pattern : Re.regex :=
  Re.Plus (Re.NoneOf ["/"; "?"; "#"]%char).

(** [Field(None, pattern="^[^\n]+$")] *)
Definition statement_pattern : Re.regex :=
  Re.Plus (Re.NoneOf [Py.newline]).

(** [Field(min_length=8)] *)
Definition nonce_min_length : nat := 8.

Section Model.
Context {C : Collaborators}.

Definition validate_pattern (f : field) (p : Re.regex) (s : string)
  : checked string :=
  if Re.fullmatch p s then pass s else fail f string_pattern_mismatch.

Definition validate_domain (v : option string) : checked string :=
  required f_domain v (validate_pattern f_domain domain_pattern).

Definition validate_str (f : field) (v : option string) : checked string :=
  required f v pass.

(** [AnyUrlStr]: validated as a URL, kept as it was written *)
Definition validate_uri (v : option string) : checked string :=
  required f_uri v (fun s =>
    match any_url s with
    | Some _ => pass s
    | None => fail f_uri url_parsing
    end).

(** [NonNegativeInt] *)
Definition validate_chain_id (v : option Z) : checked Z :=
  required f_chain_id v (fun n =>
    if 0 <=? n then pass n else fail f_chain_id greater_than_equal).

Definition validate_datetime (f : field) (s : string)
  : checked CustomDateTime :=
  match parse_datetime s with
  | Some d => pass {| text := s; date := d |}
  | None => fail f value_error
  end.

Definition validate_issued_at (v : option string)
  : checked (option issued_at_value) :=
  required f_issued_at v (fun s =>
    match validate_datetime f_issued_at s with
    | inl es => inl es
    | inr c => pass (Some (IssuedCustom c))
    end).

Definition validate_nonce (v : option string) : checked string :=
  required f_nonce v (fun s =>
    if (nonce_min_length <=? String.length s)%nat then pass s
    else fail f_nonce string_too_short).

Definition validate_statement (v : option string) : checked (option string) :=
  optional v (validate_pattern f_statement statement_pattern).

Fixpoint validate_urls (l : list string) : checked (list AnyUrl) :=
  match l with
  | [] => pass []
  | s :: rest =>
      pass cons
      <*> match any_url s with
          | Some u => pass u
          | None => fail f_resources url_parsing
          end
      <*> validate_urls rest
  end.

(** [list[AnyUrl] = Field(None, min_length=1)] *)
Definition validate_resources (v : option (list string))
  : checked (option (list AnyUrl)) :=
  optional v (fun l =>
    match l with
    | [] => fail f_resources too_short
    | _ :: _ => validate_urls l
    end).

(** [BaseModel.__init__]: every field validated, the message built when
    none fails. *)
Definition validate_fields (d : RawFields) : checked SiwsMessage :=
  pass mk_SiwsMessage
  <*> validate_domain (raw_domain d)
  <*> validate_str f_address (raw_address d)
  <*> validate_uri (raw_uri d)
  <*> validate_str f_version (raw_version d)
  <*> validate_chain_id (raw_chain_id d)
  <*> validate_issued_at (raw_issued_at d)
  <*> validate_nonce (raw_nonce d)
  <*> validate_statement (raw_statement d)
  <*> optional (raw_expiration_time d) (validate_datetime f_expiration_time)
  <*> optional (raw_not_before d) (validate_datetime f_not_before)
  <*> optional (raw_request_id d) pass
  <*> validate_resources (raw_resources d).

Definition BaseModel_init (d : RawFields) : result SiwsMessage :=
  match validate_fields d with
  | inr m => Ok m
  | inl es => Raise (ValidationError es)
  end.

(** [SiwsMessage.__init__] *)
Definition SiwsMessage_init (message : py_value) (abnf : bool)
  : result SiwsMessage :=
  match message with
  | PyStr s =>
      let parsed_message :=
        if abnf then ABNFParsedMessage s else RegExpParsedMessage s in
      match parsed_message with
      | Ok message_dict => BaseModel_init message_dict
      | Raise e => Raise e
      end
  | PyDict message_dict => BaseModel_init message_dict
  | _ => Raise TypeError
  end.

(* ---------------------------------------------------------------- *)
(** *** State: the message object, the clock, and what has been done *)

(** The conditions of [verify], and its calls into the libraries. *)
Inductive check : Type :=
| CkDomain | CkNonce | CkExpiration | CkNotBefore.

Inductive callee : Type :=
| B58DecodeAddress | NewVerifyKey | B58DecodeSignature | VerifyKeyVerify.

Inductive event : Type :=
| Checked (c : check)
| Called (c : callee).

(** [self] is the message object, mutable in place.  [clock] gives what
    successive calls of [datetime.utcnow()] return, [ticks] counts the
    calls made.  [trace] is ghost state: the conditions evaluated and the
    library calls made, in program order. *)
Record World : Type := mk_World {
  self : SiwsMessage;
  clock : nat -> naive_datetime;
  ticks : nat;
  trace : list event
}.

Definition set_self (w : World) (m : SiwsMessage) : World :=
  {| self := m; clock := clock w; ticks := ticks w; trace := trace w |}.

(** [datetime.utcnow()] *)
Definition utcnow (w : World) : naive_datetime * World :=
  (clock w (ticks w),
   {| self := self w; clock := clock w; ticks := S (ticks w);
      trace := trace w |}).

Definition emit (e : event) (w : World) : World :=
  {| self := self w; clock := clock w; ticks := ticks w;
     trace := (trace w ++ [e])%list |}.

Definition emits (es : list event) (w : World) : World :=
  fold_left (fun w e => emit e w) es w.

(* ---------------------------------------------------------------- *)
(** *** [prepare_message] *)

(** [str(self.issued_at)] inside an f-string *)
Definition str_opt_issued_at (v : option issued_at_value) : string :=
  match v with
  | None => "None"
  | Some v => str_issued_at v
  end.

(** [suffix_array.append(entry)] *)
Definition append_entry (suffix_array : list string) (entry : string)
  : list string :=
  (suffix_array ++ [entry])%list.

(** [if cond: suffix_array.append(entry)] *)
Definition append_if (cond : bool) (suffix_array : list string)
           (entry : string) : list string :=
  if cond then append_entry suffix_array entry else suffix_array.

Definition prepare_message (w : World) : string * World :=
  let header :=
    domain (self w) ++ " wants you to sign in with your Solana account:" in
  let uri_field := "URI: " ++ uri (self w) in
  let prefix := Py.join Py.nl [header; address (self w)] in
  let version_field := "Version: " ++ version (self w) in
  let chain_field :=
    "Chain ID: " ++ Py.str_int (Py.or_int (chain_id (self w)) 1) in
  let nonce_field := "Nonce: " ++ nonce (self w) in
  let suffix_array := [uri_field; version_field; chain_field; nonce_field] in
  let w :=
    match issued_at (self w) with
    | None =>
        let (now, w) := utcnow w in
        set_self w (set_issued_at (self w) (IssuedStr (isoformat now)))
    | Some _ => w
    end in
  let suffix_array :=
    append_entry suffix_array
           ("Issued At: " ++ str_opt_issued_at (issued_at (self w))) in
  let suffix_array :=
    match expiration_time (self w) with
    | Some t => append_if (truthy_custom t) suffix_array
                          ("Expiration Time: " ++ text t)
    | None => suffix_array
    end in
  let suffix_array :=
    match not_before (self w) with
    | Some t => append_if (truthy_custom t) suffix_array
                          ("Not Before: " ++ text t)
    | None => suffix_array
    end in
  let suffix_array :=
    match request_id (self w) with
    | Some r => append_if (Py.truthy_str r) suffix_array
                          ("Request ID: " ++ r)
    | None => suffix_array
    end in
  let suffix_array :=
    match resources (self w) with
    | Some rs =>
        append_if (Py.truthy_list rs) suffix_array
          (Py.join Py.nl
             ("Resources:" :: map (fun resource => "- " ++ resource) rs))
    | None => suffix_array
    end in
  let suffix := Py.join Py.nl suffix_array in
  let prefix :=
    match statement (self w) with
    | Some st =>
        if Py.truthy_str st then Py.join (Py.nl ++ Py.nl) [prefix; st]
        else prefix ++ Py.nl
    | None => prefix ++ Py.nl
    end in
  (Py.join (Py.nl ++ Py.nl) [prefix; suffix], w).

(* ---------------------------------------------------------------- *)
(** *** [verify] *)

(** Computations of [verify]: they read and update the world and may
    raise. *)
Definition M (A : Type) : Type := World -> result A * World.

Definition ret {A} (a : A) : M A := fun w => (Ok a, w).

Definition bind {A B} (m : M A) (k : A -> M B) : M B :=
  fun w =>
    match m w with
    | (Ok a, w') => k a w'
    | (Raise e, w') => (Raise e, w')
    end.

Definition raise {A} (e : exn) : M A := fun w => (Raise e, w).

Definition run {A} (f : World -> A * World) : M A :=
  fun w => let (a, w') := f w in (Ok a, w').

Definition get_self : M SiwsMessage := fun w => (Ok (self w), w).

(** the condition [c] of an [if]/[elif] is evaluated, to [b] *)
Definition cond (c : check) (b : bool) : M bool :=
  fun w => (Ok b, emit (Checked c) w).

(** the condition [c] is evaluated and gives [r]: a truth value, or the
    exception of a comparison *)
Definition cond_raising (c : check) (r : result bool) : M bool :=
  fun w => (r, emit (Checked c) w).

(** [a and b], where evaluating [b] may raise *)
Definition and_then (a : bool) (b : result bool) : result bool :=
  if a then b else Ok false.

(** the library function [c] is called, with outcome [r] *)
Definition call {A} (c : callee) (r : result A) : M A :=
  fun w => (r, emit (Called c) w).

(** [try: body  except BadSignatureError as e: raise InvalidSignature from e] *)
Definition try_except_BadSignatureError {A} (body : M A) : M A :=
  fun w =>
    match body w with
    | (Raise BadSignatureError, w') => (Raise InvalidSignature, w')
    | r => r
    end.

Notation "x <- m ;; k" := (bind m (fun x => k))
  (at level 62, m at next level, right associativity).

(** [base58.b58decode]: a [ValueError] on malformed input *)
Definition b58decode (v : string) : result (list byte) :=
  match Base58.b58decode v with
  | Some b => Ok b
  | None => Raise ValueError
  end.

(** [nacl.signing.VerifyKey(key)]: the key is 32 bytes long, or
    [ValueError] *)
Definition VerifyKey (key : list byte) : result (list byte) :=
  if (List.length key =? 32)%nat then Ok key else Raise ValueError.

(** [verify_key.verify(message, signature)]: the signature is 64 bytes
    long, or [ValueError]; the primitive accepts, or
    [BadSignatureError] *)
Definition VerifyKey_verify (verify_key message signature : list byte)
  : result unit :=
  if (List.length signature =? 64)%nat then
    if crypto_sign_open verify_key message signature then Ok tt
    else Raise BadSignatureError
  else Raise ValueError.

(** [x != s] for an [Optional[str]] [x] *)
Definition opt_str_ne (x : option string) (s : string) : bool :=
  match x with
  | None => true
  | Some x => negb (String.eqb x s)
  end.

Definition verify (signature : string)
           (domain_arg nonce_arg : option string)
           (timestamp : option datetime) : M unit :=
  message <- run prepare_message ;;
  let message := Py.encode message in
  verification_time <-
    match timestamp with
    | None => now <- run utcnow ;; ret (Naive now)
    | Some t => ret t
    end ;;
  self <- get_self ;;
  c <- cond CkDomain (Py.truthy_opt Py.truthy_str domain_arg
                      && opt_str_ne domain_arg (domain self)) ;;
  if c then raise DomainMismatch else
  c <- cond CkNonce (Py.truthy_opt Py.truthy_str nonce_arg
                     && opt_str_ne nonce_arg (nonce self)) ;;
  if c then raise NonceMismatch else
  c <- cond_raising CkExpiration
         match expiration_time self with
         | Some t =>
             and_then (truthy_custom t)
                      (datetime_ge_custom verification_time t)
         | None => Ok false
         end ;;
  if c then raise ExpiredMessage else
  c <- cond_raising CkNotBefore
         match not_before self with
         | Some t =>
             and_then (truthy_custom t)
                      (datetime_le verification_time (date t))
         | None => Ok false
         end ;;
  if c then raise NotYetValidMessage else
  try_except_BadSignatureError (
    key <- call B58DecodeAddress (b58decode (address self)) ;;
    verify_key <- call NewVerifyKey (VerifyKey key) ;;
    signature_bytes <- call B58DecodeSignature (b58decode signature) ;;
    call VerifyKeyVerify (VerifyKey_verify verify_key message signature_bytes)).

End Model.

(* ================================================================== *)
(** ** What the specification says, in its own terms *)

Module Spec.

(** "caller supplied an expected domain and it differs from
    [self.domain]"; an expected value is supplied when it is not [None]
    and not empty. *)
Definition differs (expected : option string) (actual : string) : bool :=
  match expected with
  | None => false
  | Some e => negb (String.eqb e "") && negb (String.eqb e actual)
  end.

(** The expiration condition as the source evaluates it: false without
    an [expiration_time], and else the comparison of the verification
    time with the [CustomDateTime]. *)
Definition expired (verification_time : datetime) (m : SiwsMessage)
  : result bool :=
  match expiration_time m with
  | None => Ok false
  | Some t => datetime_ge_custom verification_time t
  end.

(** The not-before condition as the source evaluates it: false without a
    [not_before], and else [verification_time <= not_before.date]. *)
Definition not_yet_valid (verification_time : datetime) (m : SiwsMessage)
  : result bool :=
  match not_before m with
  | None => Ok false
  | Some t => datetime_le verification_time (date t)
  end.

(** "caller-supplied timestamp or current UTC instant": the reading of
    [utcnow()] is naive. *)
Definition verification_time (timestamp : option datetime) (w : World)
  : datetime :=
  match timestamp with
  | Some t => t
  | None => Naive (fst (utcnow w))
  end.

(** The contextual checks of section 4.4, in its order, each with what
    its condition evaluates to and with its error. *)
Definition contextual_checks (domain_arg nonce_arg : option string)
           (verification_time : datetime) (m : SiwsMessage)
  : list (check * result bool * exn) :=
  [ (CkDomain, Ok (differs domain_arg (domain m)), DomainMismatch);
    (CkNonce, Ok (differs nonce_arg (nonce m)), NonceMismatch);
    (CkExpiration, expired verification_time m, ExpiredMessage);
    (CkNotBefore, not_yet_valid verification_time m, NotYetValidMessage) ].

(** The checks evaluated up to and including the first that does not
    pass, and the error the call ends with there: the error of the check
    when its condition holds, the exception of the condition when its
    evaluation raises. *)
Fixpoint first_failure (checks : list (check * result bool * exn))
  : list event * option exn :=
  match checks with
  | [] => ([], None)
  | (c, Ok true, e) :: _ => ([Checked c], Some e)
  | (c, Raise x, _) :: _ => ([Checked c], Some x)
  | (c, Ok false, _) :: rest =>
      let (evs, r) := first_failure rest in (Checked c :: evs, r)
  end.

(** Section 4.3, the lines of the message after the prefix: the five
    fixed fields, then the optional ones that are present. *)
Definition header (m : SiwsMessage) : string :=
  domain m ++ " wants you to sign in with your Solana account:".

Definition fixed_lines (m : SiwsMessage) : list string :=
  [ "URI: " ++ uri m;
    "Version: " ++ version m;
    "Chain ID: " ++ Py.str_int (if chain_id m =? 0 then 1 else chain_id m);
    "Nonce: " ++ nonce m;
    "Issued At: " ++ str_opt_issued_at (issued_at m) ].

Definition present (o : option string) : option string :=
  match o with
  | Some "" => None
  | _ => o
  end.

Definition entry (label : string) (value : option string) : list string :=
  match value with
  | Some v => [label ++ v]
  | None => []
  end.

Definition resources_entry (rs : option (list AnyUrl)) : list string :=
  match rs with
  | Some (r :: rs) =>
      [Py.join Py.nl ("Resources:" :: map (fun u => "- " ++ u) (r :: rs))]
  | _ => []
  end.

Definition optional_entries (m : SiwsMessage) : list string :=
  List.concat
    [ entry "Expiration Time: " (option_map text (expiration_time m));
      entry "Not Before: " (option_map text (not_before m));
      entry "Request ID: " (present (request_id m));
      resources_entry (resources m) ].

Definition suffix_entries (m : SiwsMessage) : list string :=
  (fixed_lines m ++ optional_entries m)%list.

(** header and address joined by a single newline; then the statement
    as a paragraph of its own, or a single newline *)
Definition prefix (m : SiwsMessage) : string :=
  header m ++ Py.nl ++ address m ++
  match present (statement m) with
  | Some st => Py.nl ++ Py.nl ++ st
  | None => Py.nl
  end.

(** The layout with the entries of the suffix a line each. *)
Definition layout (m : SiwsMessage) : string :=
  prefix m ++ Py.nl ++ Py.nl ++ Py.join Py.nl (suffix_entries m).

(** The layout as step 5 words it: "each suffix entry
    blank-line-separated". *)
Definition layout_blank_line_separated (m : SiwsMessage) : string :=
  prefix m ++ Py.nl ++ Py.nl ++ Py.join (Py.nl ++ Py.nl) (suffix_entries m).

(** "mutates no field of the message other than [issued_at]" *)
Definition same_except_issued_at (m m' : SiwsMessage) : Prop :=
  domain m' = domain m /\ address m' = address m /\ uri m' = uri m /\
  version m' = version m /\ chain_id m' = chain_id m /\
  nonce m' = nonce m /\ statement m' = statement m /\
  expiration_time m' = expiration_time m /\
  not_before m' = not_before m /\ request_id m' = request_id m /\
  resources m' = resources m.

End Spec.

(* ================================================================== *)
(** ** Sample values *)

Module Sample.

(** Three instants, aware and in UTC, and the naive reading of the second. *)
Definition t0 : datetime := Aware (mk_datetime 2024 1 1 0 0 0 0) 0.
Definition noon : datetime := Aware (mk_datetime 2024 6 1 12 0 0 0) 0.
Definition t1 : datetime := Aware (mk_datetime 2025 1 1 0 0 0 0) 0.
Definition wall_noon : naive_datetime := mk_datetime 2024 6 1 12 0 0 0.

(** Stand-ins for the collaborators: URLs are the strings with a scheme
    separator, three timestamps are known, the parsers accept nothing
    and the primitive rejects every signature. *)
Fixpoint has_colon (s : string) : bool :=
  match s with
  | "" => false
  | String c rest => Ascii.eqb c ":" || has_colon rest
  end.

Definition collaborators : Collaborators := {|
  any_url := fun s => if has_colon s then Some s else None;
  parse_datetime := fun s =>
    if String.eqb s "2024-01-01T00:00:00Z" then Some t0
    else if String.eqb s "2024-06-01T12:00:00Z" then Some noon
    else if String.eqb s "2025-01-01T00:00:00Z" then Some t1
    else None;
  ABNFParsedMessage := fun _ => Raise ParsingError;
  RegExpParsedMessage := fun _ => Raise ParsingError;
  crypto_sign_open := fun _ _ _ => false
|}.

Definition fields : RawFields := {|
  raw_domain := Some "example.com";
  raw_address := Some "11111111111111111111111111111111";
  raw_uri := Some "https://example.com/login";
  raw_version := Some "1";
  raw_chain_id := Some 1;
  raw_issued_at := Some "2024-01-01T00:00:00Z";
  raw_nonce := Some "abcdefgh";
  raw_statement := None;
  raw_expiration_time := None;
  raw_not_before := None;
  raw_request_id := None;
  raw_resources := None
|}.

Definition message : SiwsMessage := {|
  domain := "example.com";
  address := "11111111111111111111111111111111";
  uri := "https://example.com/login";
  version := "1";
  chain_id := 1;
  issued_at := Some (IssuedCustom {| text := "2024-01-01T00:00:00Z"; date := t0 |});
  nonce := "abcdefgh";
  statement := None;
  expiration_time := None;
  not_before := None;
  request_id := None;
  resources := None
|}.

Definition at_noon : CustomDateTime :=
  {| text := "2024-06-01T12:00:00Z"; date := noon |}.

(** [message], valid from [nb] and until [ex] *)
Definition message_between (nb ex : option CustomDateTime) : SiwsMessage := {|
  domain := "good.example";
  address := "11111111111111111111111111111111";
  uri := "https://good.example/login";
  version := "1";
  chain_id := 1;
  issued_at := Some (IssuedCustom {| text := "2024-01-01T00:00:00Z"; date := t0 |});
  nonce := "abcdefgh";
  statement := None;
  expiration_time := ex;
  not_before := nb;
  request_id := None;
  resources := None
|}.

(** A message with every optional field, and no [issued_at] yet. *)
Definition full_message : SiwsMessage := {|
  domain := "example.com";
  address := "11111111111111111111111111111111";
  uri := "https://example.com/login";
  version := "1";
  chain_id := 0;
  issued_at := None;
  nonce := "abcdefgh";
  statement := Some "Sign in to Example.";
  expiration_time := Some {| text := "2025-01-01T00:00:00Z"; date := t1 |};
  not_before := Some {| text := "2024-01-01T00:00:00Z"; date := t0 |};
  request_id := Some "req-1";
  resources := Some ["https://example.com/a"; "https://example.com/b"]
|}.

Definition world (m : SiwsMessage) : World :=
  {| self := m; clock := fun _ => wall_noon; ticks := 0; trace := [] |}.

Definition good : World := world (message_between None None).
Definition closes_at_noon : World :=
  world (message_between None (Some at_noon)).

End Sample.

(* ================================================================== *)
(** ** Further readings of the message *)

(** More records that differ from a given one in one field. *)
Definition set_statement (m : SiwsMessage) (v : option string) : SiwsMessage :=
  {| domain := domain m; address := address m; uri := uri m;
     version := version m; chain_id := chain_id m;
     issued_at := issued_at m;
     nonce := nonce m; statement := v;
     expiration_time := expiration_time m; not_before := not_before m;
     request_id := request_id m; resources := resources m |}.

Definition set_resources (m : SiwsMessage) (v : option (list AnyUrl))
  : SiwsMessage :=
  {| domain := domain m; address := address m; uri := uri m;
     version := version m; chain_id := chain_id m;
     issued_at := issued_at m;
     nonce := nonce m; statement := statement m;
     expiration_time := expiration_time m; not_before := not_before m;
     request_id := request_id m; resources := v |}.

Definition with_statement (d : RawFields) (v : option string) : RawFields :=
  {| raw_domain := raw_domain d; raw_address := raw_address d;
     raw_uri := raw_uri d;
     raw_version := raw_version d; raw_chain_id := raw_chain_id d;
     raw_issued_at := raw_issued_at d;
     raw_nonce := raw_nonce d; raw_statement := v;
     raw_expiration_time := raw_expiration_time d;
     raw_not_before := raw_not_before d;
     raw_request_id := raw_request_id d; raw_resources := raw_resources d |}.

Definition with_chain_id (d : RawFields) (v : Z) : RawFields :=
  {| raw_domain := raw_domain d; raw_address := raw_address d;
     raw_uri := raw_uri d;
     raw_version := raw_version d; raw_chain_id := Some v;
     raw_issued_at := raw_issued_at d;
     raw_nonce := raw_nonce d; raw_statement := raw_statement d;
     raw_expiration_time := raw_expiration_time d;
     raw_not_before := raw_not_before d;
     raw_request_id := raw_request_id d; raw_resources := raw_resources d |}.

Definition with_resources (d : RawFields) (v : option (list string))
  : RawFields :=
  {| raw_domain := raw_domain d; raw_address := raw_address d;
     raw_uri := raw_uri d;
     raw_version := raw_version d; raw_chain_id := raw_chain_id d;
     raw_issued_at := raw_issued_at d;
     raw_nonce := raw_nonce d; raw_statement := raw_statement d;
     raw_expiration_time := raw_expiration_time d;
     raw_not_before := raw_not_before d;
     raw_request_id := raw_request_id d; raw_resources := v |}.

(** The same world with another clock. *)
Definition set_clock (w : World) (clk : nat -> naive_datetime) : World :=
  {| self := self w; clock := clk; ticks := ticks w; trace := trace w |}.

Module Canon.

(** The fields without a default: the keys [BaseModel.__init__] wants. *)
Definition required_fields : list field :=
  [f_domain; f_address; f_uri; f_version; f_chain_id; f_issued_at; f_nonce].

Definition is_none {A} (o : option A) : bool :=
  match o with None => true | Some _ => false end.

(** The key of field [f] is not in the mapping. *)
Definition absent (f : field) (d : RawFields) : bool :=
  match f with
  | f_domain => is_none (raw_domain d)
  | f_address => is_none (raw_address d)
  | f_uri => is_none (raw_uri d)
  | f_version => is_none (raw_version d)
  | f_chain_id => is_none (raw_chain_id d)
  | f_issued_at => is_none (raw_issued_at d)
  | f_nonce => is_none (raw_nonce d)
  | f_statement => is_none (raw_statement d)
  | f_expiration_time => is_none (raw_expiration_time d)
  | f_not_before => is_none (raw_not_before d)
  | f_request_id => is_none (raw_request_id d)
  | f_resources => is_none (raw_resources d)
  end.

(** A string without a newline. *)
Definition one_line (s : string) : bool := Re.free_of [Py.newline] s.

Definition one_line_opt (o : option string) : bool :=
  match o with None => true | Some s => one_line s end.

(** No field of the message has a newline in its text. *)
Definition one_line_fields (m : SiwsMessage) : bool :=
  one_line (domain m) && one_line (address m) && one_line (uri m)
  && one_line (version m) && one_line (nonce m)
  && one_line_opt (statement m)
  && one_line_opt (option_map str_issued_at (issued_at m))
  && one_line_opt (option_map text (expiration_time m))
  && one_line_opt (option_map text (not_before m))
  && one_line_opt (request_id m)
  && match resources m with None => true | Some rs => forallb one_line rs end.

(** A list that [if self.resources:] takes as present. *)
Definition nonempty {A} (o : option (list A)) : option (list A) :=
  match o with
  | Some (x :: l) => Some (x :: l)
  | _ => None
  end.

Definition bullet (resource : string) : string := "- " ++ resource.

Definition statement_lines (m : SiwsMessage) : list string :=
  match Spec.present (statement m) with
  | Some st => [st; ""]
  | None => [""]
  end.

Definition resources_lines (rs : option (list AnyUrl)) : list string :=
  match nonempty rs with
  | Some rs => "Resources:" :: map bullet rs
  | None => []
  end.

(** The serialized message, line by line. *)
Definition lines (m : SiwsMessage) : list string :=
  ([Spec.header m; address m; ""]
   ++ statement_lines m
   ++ Spec.fixed_lines m
   ++ Spec.entry "Expiration Time: " (option_map text (expiration_time m))
   ++ Spec.entry "Not Before: " (option_map text (not_before m))
   ++ Spec.entry "Request ID: " (Spec.present (request_id m))
   ++ resources_lines (resources m))%list.

(** What the serialized message shows of the fields. *)
Record rendering : Type := mk_rendering {
  r_domain : string;
  r_address : string;
  r_statement : option string;
  r_uri : string;
  r_version : string;
  r_chain_id : Z;
  r_nonce : string;
  r_issued_at : string;
  r_expiration_time : option string;
  r_not_before : option string;
  r_request_id : option string;
  r_resources : option (list AnyUrl)
}.

Definition rendered (m : SiwsMessage) : rendering := {|
  r_domain := domain m;
  r_address := address m;
  r_statement := Spec.present (statement m);
  r_uri := uri m;
  r_version := version m;
  r_chain_id := Py.or_int (chain_id m) 1;
  r_nonce := nonce m;
  r_issued_at := str_opt_issued_at (issued_at m);
  r_expiration_time := option_map text (expiration_time m);
  r_not_before := option_map text (not_before m);
  r_request_id := Spec.present (request_id m);
  r_resources := nonempty (resources m)
|}.

(** The message with its falsy optional fields taken as absent. *)
Definition drop_falsy (m : SiwsMessage) : SiwsMessage :=
  {| domain := domain m; address := address m; uri := uri m;
     version := version m; chain_id := chain_id m;
     issued_at := issued_at m;
     nonce := nonce m; statement := Spec.present (statement m);
     expiration_time := expiration_time m; not_before := not_before m;
     request_id := Spec.present (request_id m);
     resources := nonempty (resources m) |}.

End Canon.

Section Outcome.
Context {C : Collaborators}.

(** The resources of a mapping, validated one by one: an error for each
    that is no URL, and [str()] of each that is one. *)
Definition url_errors (l : list string) : list error :=
  flat_map (fun s => match any_url s with
                     | Some _ => []
                     | None => [(f_resources, url_parsing)]
                     end) l.

Definition url_texts (l : list string) : list AnyUrl :=
  flat_map (fun s => match any_url s with
                     | Some u => [u]
                     | None => []
                     end) l.

(** The signature stage of [verify] as a function of what it reads: the
    two texts to decode and the bytes that were signed. *)
Definition signature_outcome (address signature : string)
           (message : list byte) : result unit :=
  match Base58.b58decode address with
  | None => Raise ValueError
  | Some key =>
      if (List.length key =? 32)%nat then
        match Base58.b58decode signature with
        | None => Raise ValueError
        | Some signature_bytes =>
            if (List.length signature_bytes =? 64)%nat then
              if crypto_sign_open key message signature_bytes
              then Ok tt else Raise InvalidSignature
            else Raise ValueError
        end
      else Raise ValueError
  end.

(** The outcome of [verify] as a function of the message, the text it
    serializes to, the verification time and the arguments. *)
Definition verify_outcome (signature : string)
           (domain_arg nonce_arg : option string) (vt : datetime)
           (m : SiwsMessage) (serialized : string) : result unit :=
  match snd (Spec.first_failure
               (Spec.contextual_checks domain_arg nonce_arg vt m)) with
  | Some e => Raise e
  | None => signature_outcome (address m) signature (Py.encode serialized)
  end.

End Outcome.

Module MoreSamples.

(** [Sample.fields] without the key of the nonce. *)
Definition fields_without_nonce : RawFields := {|
  raw_domain := Some "example.com";
  raw_address := Some "11111111111111111111111111111111";
  raw_uri := Some "https://example.com/login";
  raw_version := Some "1";
  raw_chain_id := Some 1;
  raw_issued_at := Some "2024-01-01T00:00:00Z";
  raw_nonce := None;
  raw_statement := None;
  raw_expiration_time := None;
  raw_not_before := None;
  raw_request_id := None;
  raw_resources := None
|}.

(** Collaborators as in [Sample], with a primitive that accepts every
    signature. *)
Definition accepting : Collaborators := {|
  any_url := any_url (Collaborators := Sample.collaborators);
  parse_datetime := parse_datetime (Collaborators := Sample.collaborators);
  ABNFParsedMessage := fun _ => Raise ParsingError;
  RegExpParsedMessage := fun _ => Raise ParsingError;
  crypto_sign_open := fun _ _ _ => true
|}.

(** 64 zero bytes, in base-58. *)
Definition signature64 : string :=
  "1111111111111111111111111111111111111111111111111111111111111111".

(** A message open from [Sample.t0] on, without an expiry. *)
Definition opened : World :=
  Sample.world
    (Sample.message_between
       (Some {| text := "2024-01-01T00:00:00Z"; date := Sample.t0 |})
       None).

End MoreSamples.

(* ================================================================== *)
(** ** Properties of the runtime model *)

Section Strings.

Lemma append_nil_r (s : string) : s ++ "" = s.
Proof. induction s as [|c s IH]; simpl; [reflexivity | now rewrite IH]. Qed.

Lemma append_assoc (a b c : string) : (a ++ b) ++ c = a ++ (b ++ c).
Proof. induction a as [|x a IH]; simpl; [reflexivity | now rewrite IH]. Qed.

Lemma append_eq_nil (a b : string) : a ++ b = "" -> a = "" /\ b = "".
Proof. destruct a; simpl; intros H; [auto | discriminate]. Qed.

Lemma append_eq_cons (a b s : string) (c : ascii) :
  a ++ b = String c s ->
  (a = "" /\ b = String c s) \/ (exists a', a = String c a' /\ s = a' ++ b).
Proof.
  destruct a as [|x a]; simpl; intros H.
  - left; auto.
  - right. injection H as -> <-. eauto.
Qed.

End Strings.

(* ------------------------------------------------------------------ *)
(** *** The matcher decides the patterns *)

Module ReFacts.
Import Re.

Example domain_pattern_text :
  compile "^[^/?#]+$" = Some domain_pattern.
Proof. reflexivity. Qed.

Example statement_pattern_text :
  compile ("^[^" ++ Py.nl ++ "]+$") = Some statement_pattern.
Proof. reflexivity. Qed.

Example domain_pattern_samples :
  map (fullmatch domain_pattern) ["a.b"; "a/b"; "a?b"; "a#"; ""; "localhost:8080"]
  = [true; false; false; false; false; true].
Proof. reflexivity. Qed.

Create HintDb re.
#[local] Hint Constructors matches : re.

Lemma nullable_matches (r : regex) : nullable r = true -> matches r "".
Proof.
  induction r; simpl; intros H; try discriminate; auto with re.
  - apply orb_true_iff in H as [H|H]; auto with re.
  - apply andb_true_iff in H as [Ha Hb].
    change "" with ("" ++ ""). auto with re.
Qed.

Lemma matches_nullable (r : regex) (s : string) :
  matches r s -> s = "" -> nullable r = true.
Proof.
  induction 1; simpl; intros E; try reflexivity; try discriminate.
  - rewrite IHmatches by assumption. reflexivity.
  - rewrite IHmatches by assumption. apply orb_true_r.
  - apply append_eq_nil in E as [-> ->].
    rewrite IHmatches1, IHmatches2; reflexivity.
Qed.

Lemma deriv_sound (r : regex) :
  forall c s, matches (deriv r c) s -> matches r (String c s).
Proof.
  induction r; simpl; intros c s H.
  - inversion H.
  - inversion H.
  - destruct (mem c cs) eqn:E; inversion H; subst. now constructor.
  - inversion H; subst; auto with re.
  - destruct (nullable r1) eqn:N.
    + inversion H as [| |? ? ? H1|? ? ? H1| | |]; subst.
      * inversion H1; subst.
        change (String c (s1 ++ s2)) with (String c s1 ++ s2). auto with re.
      * change (String c s) with ("" ++ String c s).
        apply m_cat; [now apply nullable_matches | auto].
    + inversion H; subst.
      change (String c (s1 ++ s2)) with (String c s1 ++ s2). auto with re.
  - inversion H; subst.
    change (String c (s1 ++ s2)) with (String c s1 ++ s2). auto with re.
Qed.

Lemma deriv_complete (r : regex) (t : string) :
  matches r t -> forall c s, t = String c s -> matches (deriv r c) s.
Proof.
  induction 1; intros x u E; simpl; try discriminate.
  - injection E as -> <-. rewrite H. constructor.
  - auto with re.
  - auto with re.
  - apply append_eq_cons in E as [[-> ->] | (a' & -> & ->)].
    + rewrite (matches_nullable a "") by auto. auto with re.
    + destruct (nullable a); auto with re.
  - apply append_eq_cons in E as [[-> ->] | (a' & -> & ->)].
    + now apply IHmatches2.
    + auto with re.
Qed.

Theorem fullmatch_iff (s : string) :
  forall r, fullmatch r s = true <-> matches r s.
Proof.
  induction s as [|c s IH]; simpl; intros r.
  - split; [apply nullable_matches | intros H; now apply matches_nullable with ""].
  - rewrite IH. split; [apply deriv_sound |].
    intros H. now apply deriv_complete with (String c s).
Qed.

Lemma free_of_app cs (a b : string) :
  free_of cs (a ++ b) = free_of cs a && free_of cs b.
Proof.
  induction a as [|x a IH]; simpl; [reflexivity|].
  now rewrite IH, andb_assoc.
Qed.

Lemma star_none_of_free cs (r : regex) (s : string) :
  matches r s -> r = Star (NoneOf cs) -> free_of cs s = true.
Proof.
  induction 1; intros E; try discriminate; [reflexivity|].
  injection E as ->. rewrite free_of_app, IHmatches2 by reflexivity.
  inversion H; subst; simpl.
  match goal with Hm : mem _ _ = false |- _ => now rewrite Hm end.
Qed.

Lemma free_star_none_of cs (s : string) :
  free_of cs s = true -> matches (Star (NoneOf cs)) s.
Proof.
  induction s as [|c s IH]; simpl; intros H; [constructor|].
  apply andb_true_iff in H as [Hc Hs].
  change (String c s) with (String c "" ++ s).
  apply m_star_cons; [|auto].
  constructor. now apply negb_true_iff.
Qed.

(** [^[^cs]+$] accepts the non-empty strings free of [cs]. *)
Theorem fullmatch_plus_none_of cs (s : string) :
  fullmatch (Plus (NoneOf cs)) s
  = negb (String.eqb s "") && free_of cs s.
Proof.
  apply eq_true_iff_eq. rewrite fullmatch_iff, andb_true_iff, negb_true_iff.
  rewrite String.eqb_neq. unfold Plus. split.
  - intros H. inversion H as [| | | |? ? s1 s2 H1 H2| |]; subst.
    inversion H1; subst. simpl. split; [discriminate|].
    match goal with Hm : mem _ _ = false |- _ => rewrite Hm end.
    simpl. now apply star_none_of_free with (Star (NoneOf cs)).
  - intros [Hne Hfree]. destruct s as [|c s]; [congruence|].
    simpl in Hfree. apply andb_true_iff in Hfree as [Hc Hs].
    change (String c s) with (String c "" ++ s).
    constructor; [|now apply free_star_none_of].
    constructor. now apply negb_true_iff.
Qed.

End ReFacts.

(* ================================================================== *)
(** ** Construction *)

Section Construction.
Context {C : Collaborators}.

Lemma errors_of_ap {A B} (cf : checked (A -> B)) (ca : checked A) :
  errors_of (cf <*> ca) = (errors_of cf ++ errors_of ca)%list.
Proof. destruct cf, ca; reflexivity. Qed.

Lemma ap_inr {A B} (f : A -> B) (a : A) : inr f <*> inr a = inr (f a).
Proof. reflexivity. Qed.

(** In a record that validates, every field does. *)
Ltac field_by_field H :=
  unfold SiwsMessage_init, BaseModel_init, validate_fields, pass in H;
  repeat match type of H with
    | context [inr _ <*> ?v] =>
        let E := fresh "E" in
        destruct v eqn:E; [cbn in H; discriminate H |];
        rewrite ap_inr in H
    end.

Ltac same_fields :=
  unfold SiwsMessage_init, BaseModel_init, validate_fields, pass;
  cbn [with_nonce with_domain raw_domain raw_address raw_uri raw_version
       raw_chain_id raw_issued_at raw_nonce raw_statement
       raw_expiration_time raw_not_before raw_request_id raw_resources];
  repeat match goal with
    | E : ?v = inr _ |- context [?v] => rewrite E
    end;
  repeat rewrite ap_inr.

Lemma leb_8_ltb (n : nat) : (8 <=? n)%nat = negb (n <? 8)%nat.
Proof.
  destruct (Nat.leb_spec 8 n), (Nat.ltb_spec n 8); simpl; try reflexivity; lia.
Qed.

(** C8: in a field record whose other fields are valid, a nonce shorter
    than 8 characters (7, for one) makes construction fail with the
    nonce-length error, and a nonce of 8 characters or more is
    accepted: the message is constructed, with that nonce. *)
Theorem nonce_min_length_inclusive_8 :
  forall (d : RawFields) (m : SiwsMessage) (n : string) (abnf : bool),
    SiwsMessage_init (PyDict d) abnf = Ok m ->
    SiwsMessage_init (PyDict (with_nonce d n)) abnf =
      if (String.length n <? 8)%nat
      then Raise (ValidationError [(f_nonce, string_too_short)])
      else Ok (set_nonce m n).
Proof.
  intros d m n abnf H.
  field_by_field H. injection H as <-.
  same_fields.
  unfold validate_nonce, required, nonce_min_length.
  rewrite leb_8_ltb. destruct (String.length n <? 8)%nat; reflexivity.
Qed.

(** C9: in a field record whose other fields are valid, a domain that
    contains '/', '?' or '#' (or is empty) makes construction fail with
    the pattern error of the domain, and a non-empty domain free of the
    three characters is accepted. *)
Theorem domain_pattern_enforced :
  forall (d : RawFields) (m : SiwsMessage) (s : string) (abnf : bool),
    SiwsMessage_init (PyDict d) abnf = Ok m ->
    SiwsMessage_init (PyDict (with_domain d s)) abnf =
      if Re.free_of ["/"; "?"; "#"]%char s && negb (String.eqb s "")
      then Ok (set_domain m s)
      else Raise (ValidationError [(f_domain, string_pattern_mismatch)]).
Proof.
  intros d m s abnf H.
  field_by_field H. injection H as <-.
  same_fields.
  unfold validate_domain, required, validate_pattern, domain_pattern.
  rewrite ReFacts.fullmatch_plus_none_of, andb_comm.
  destruct (Re.free_of _ s && _); reflexivity.
Qed.

(** C10: a constructor argument that is neither a [str] nor a [dict]
    raises [TypeError]; no message is constructed. *)
Theorem init_rejects_other_types :
  forall (message : py_value) (abnf : bool),
    isinstance_str message = false ->
    isinstance_dict message = false ->
    SiwsMessage_init message abnf = Raise TypeError.
Proof.
  intros message abnf Hs Hd.
  destruct message; simpl in *; try discriminate; reflexivity.
Qed.

End Construction.

(* ================================================================== *)
(** ** Serialization *)

Section Lines.

Example str_int_samples :
  map Py.str_int [0; 7; 10; 99; 100; 1024; 4294967296; -5]
  = ["0"; "7"; "10"; "99"; "100"; "1024"; "4294967296"; "-5"].
Proof. reflexivity. Qed.

Example isoformat_samples :
  isoformat (mk_datetime 2024 1 2 3 4 5 0) = "2024-01-02T03:04:05"
  /\ isoformat (mk_datetime 2024 11 22 13 14 15 1200)
     = "2024-11-22T13:14:15.001200".
Proof. split; reflexivity. Qed.

Example split_lines_sample :
  Py.split_lines ("ab" ++ Py.nl ++ Py.nl ++ "c" ++ Py.nl) = ["ab"; ""; "c"; ""].
Proof. reflexivity. Qed.

Example b58decode_samples :
  Base58.b58decode "StV1DL6CwTryKyV"
  = Some (list_byte_of_string "hello world")
  /\ Base58.b58decode "11" = Some ["000"%byte; "000"%byte]
  /\ Base58.b58decode "2g " = Some ["a"%byte]
  /\ Base58.b58decode "0" = None
  /\ Base58.b58decode "l" = None.
Proof. repeat split; reflexivity. Qed.

Lemma split_lines_nonempty (s : string) : Py.split_lines s <> [].
Proof.
  destruct s as [|c s]; simpl; [discriminate|].
  destruct (Ascii.eqb c Py.newline); [discriminate|].
  destruct (Py.split_lines s); discriminate.
Qed.

(** [(a + "\n" + b).split("\n") == a.split("\n") + b.split("\n")] *)
Lemma split_lines_app (a b : string) :
  Py.split_lines (a ++ Py.nl ++ b)
  = (Py.split_lines a ++ Py.split_lines b)%list.
Proof.
  induction a as [|c a IH]; simpl.
  - reflexivity.
  - destruct (Ascii.eqb c Py.newline).
    + simpl. now rewrite <- IH.
    + simpl in IH. rewrite IH.
      pose proof (split_lines_nonempty a) as Hne.
      destruct (Py.split_lines a); [congruence | reflexivity].
Qed.

Lemma split_lines_single (l : string) :
  Re.free_of [Py.newline] l = true -> Py.split_lines l = [l].
Proof.
  induction l as [|c l IH]; simpl; intros H; [reflexivity|].
  apply andb_true_iff in H as [Hc Hl].
  rewrite orb_false_r in Hc. apply negb_true_iff in Hc.
  rewrite Hc, IH by assumption. reflexivity.
Qed.

(** A newline-free string between two newlines is one of the lines. *)
Lemma line_between (pre l post : string) :
  Re.free_of [Py.newline] l = true ->
  In l (Py.split_lines (pre ++ Py.nl ++ l ++ Py.nl ++ post)).
Proof.
  intros H. rewrite !split_lines_app.
  rewrite (split_lines_single l H).
  apply in_or_app. right. now left.
Qed.

Lemma digit_not_newline (d : Z) :
  0 <= d < 10 -> Ascii.eqb (Py.digit d) Py.newline = false.
Proof.
  intros H. unfold Py.digit.
  assert (Hk : (Z.to_nat d < 10)%nat) by lia.
  revert Hk. generalize (Z.to_nat d) as k. intros k Hk.
  do 10 (destruct k as [|k]; [reflexivity|]). lia.
Qed.

Lemma digits_no_newline (fuel : nat) :
  forall n acc,
    Re.free_of [Py.newline] acc = true ->
    Re.free_of [Py.newline] (Py.digits fuel n acc) = true.
Proof.
  induction fuel as [|fuel IH]; cbn [Py.digits]; intros n acc H; [assumption|].
  assert (Hacc : Re.free_of [Py.newline] (String (Py.digit (n mod 10)) acc) = true).
  { cbn [Re.free_of Re.mem existsb].
    rewrite digit_not_newline, H; [reflexivity|].
    apply Z.mod_pos_bound. lia. }
  destruct (n / 10 =? 0); [assumption | now apply IH].
Qed.

Lemma str_int_no_newline (n : Z) :
  Re.free_of [Py.newline] (Py.str_int n) = true.
Proof.
  unfold Py.str_int, Py.str_nat.
  destruct (n <? 0).
  - rewrite ReFacts.free_of_app, digits_no_newline by reflexivity.
    reflexivity.
  - now apply digits_no_newline.
Qed.

Lemma digit_value_digit (d : Z) :
  0 <= d < 10 -> Py.digit_value (Py.digit d) = d /\ Py.digit d <> "-"%char.
Proof.
  intros H. unfold Py.digit, Py.digit_value.
  assert (Hk : (Z.to_nat d < 10)%nat) by lia.
  rewrite <- (Z2Nat.id d) at 2 by lia.
  revert Hk. generalize (Z.to_nat d) as k. intros k Hk.
  do 10 (destruct k as [|k]; [split; [reflexivity | discriminate]|]). lia.
Qed.

(** The fuel of [str_nat] is enough: the digits denote the number. *)
Lemma int_nat_digits (fuel : nat) :
  forall n acc,
    0 <= n < 10 ^ Z.of_nat fuel ->
    Py.int_nat (Py.digits fuel n acc)
    = n * 10 ^ Z.of_nat (String.length acc) + Py.int_nat acc.
Proof.
  induction fuel as [|fuel IH]; intros n acc Hn.
  - cbn [Py.digits]. change (10 ^ Z.of_nat 0) with 1 in Hn. nia.
  - cbn [Py.digits].
    assert (Hmod : 0 <= n mod 10 < 10) by (apply Z.mod_pos_bound; lia).
    pose proof (Z.div_mod n 10 ltac:(lia)) as Hdm.
    assert (Hacc : Py.int_nat (String (Py.digit (n mod 10)) acc)
                   = n mod 10 * 10 ^ Z.of_nat (String.length acc)
                     + Py.int_nat acc).
    { cbn [Py.int_nat]. now rewrite (proj1 (digit_value_digit _ Hmod)). }
    destruct (n / 10 =? 0) eqn:E.
    + apply Z.eqb_eq in E. rewrite Hacc. replace (n mod 10) with n by lia.
      reflexivity.
    + rewrite IH, Hacc.
      * cbn [String.length]. rewrite Nat2Z.inj_succ, Z.pow_succ_r by lia.
        rewrite Hdm at 3. ring.
      * rewrite Nat2Z.inj_succ, Z.pow_succ_r in Hn by lia.
        split; [apply Z.div_pos; lia | apply Z.div_lt_upper_bound; lia].
Qed.

Lemma digits_head (fuel : nat) :
  forall n acc,
    match acc with String c _ => c <> "-"%char | "" => True end ->
    match Py.digits fuel n acc with
    | String c _ => c <> "-"%char
    | "" => True
    end.
Proof.
  induction fuel as [|fuel IH]; intros n acc H; cbn [Py.digits]; [exact H|].
  assert (Hd : Py.digit (n mod 10) <> "-"%char).
  { apply digit_value_digit, Z.mod_pos_bound. lia. }
  destruct (n / 10 =? 0); [exact Hd | now apply IH].
Qed.

Lemma int_nat_str_nat (n : Z) : 0 <= n -> Py.int_nat (Py.str_nat n) = n.
Proof.
  intros Hn. unfold Py.str_nat. rewrite int_nat_digits.
  - change (String.length "") with 0%nat. change (Py.int_nat "") with 0.
    change (10 ^ Z.of_nat 0) with 1. lia.
  - split; [exact Hn|].
    rewrite Nat2Z.inj_succ, Z2Nat.id by apply Z.log2_nonneg.
    destruct (Z.eq_dec n 0) as [-> | Hne]; [reflexivity|].
    pose proof (Z.log2_spec n ltac:(lia)) as [_ Hlt].
    apply Z.lt_le_trans with (2 ^ Z.succ (Z.log2 n)); [exact Hlt|].
    apply Z.pow_le_mono_l. pose proof (Z.log2_nonneg n). lia.
Qed.

(** [int(str(n)) == n]: no digit of [str(n)] is lost. *)
Lemma int_str_str_int (n : Z) : Py.int_str (Py.str_int n) = n.
Proof.
  unfold Py.str_int. destruct (Z.ltb_spec n 0) as [Hneg | Hpos].
  - change ("-" ++ Py.str_nat (- n)) with (String "-" (Py.str_nat (- n))).
    cbn [Py.int_str]. rewrite int_nat_str_nat by lia. lia.
  - pose proof (int_nat_str_nat n Hpos) as Hv.
    pose proof (digits_head (S (Z.to_nat (Z.log2 n))) n "" I) as Hh.
    fold (Py.str_nat n) in Hh.
    destruct (Py.str_nat n) as [|c rest]; [exact Hv|].
    unfold Py.int_str.
    destruct (Ascii.eqb_spec c "-"%char) as [-> | Hc]; [congruence|].
    destruct c as [[] [] [] [] [] [] [] []]; try exact Hv; congruence.
Qed.

Lemma str_int_inj (a b : Z) : Py.str_int a = Py.str_int b -> a = b.
Proof.
  intros H. rewrite <- (int_str_str_int a), <- (int_str_str_int b).
  now rewrite H.
Qed.

Lemma or_int_1 (n : Z) : Py.or_int n 1 = if n =? 0 then 1 else n.
Proof. unfold Py.or_int, Py.truthy_int. destruct (n =? 0); reflexivity. Qed.

End Lines.

Section Serialization.

Example prepare_message_sample :
  fst (prepare_message (Sample.world Sample.message))
  = "example.com wants you to sign in with your Solana account:" ++ Py.nl
    ++ "11111111111111111111111111111111" ++ Py.nl
    ++ Py.nl
    ++ Py.nl
    ++ "URI: https://example.com/login" ++ Py.nl
    ++ "Version: 1" ++ Py.nl
    ++ "Chain ID: 1" ++ Py.nl
    ++ "Nonce: abcdefgh" ++ Py.nl
    ++ "Issued At: 2024-01-01T00:00:00Z".
Proof. reflexivity. Qed.

Lemma truthy_str_cons (c : ascii) (s : string) :
  Py.truthy_str (String c s) = true.
Proof. reflexivity. Qed.

(** The state [prepare_message] leaves behind. *)
Lemma prepare_message_state (w : World) :
  snd (prepare_message w) =
    match issued_at (self w) with
    | Some _ => w
    | None =>
        set_self (snd (utcnow w))
          (set_issued_at (self w) (IssuedStr (isoformat (fst (utcnow w)))))
    end.
Proof.
  unfold prepare_message. destruct (issued_at (self w)); reflexivity.
Qed.

(** The text [prepare_message] returns, field by field. *)
Lemma prepare_message_layout (w : World) :
  fst (prepare_message w) = Spec.layout (self (snd (prepare_message w))).
Proof.
  rewrite prepare_message_state.
  unfold prepare_message, Spec.layout, Spec.prefix, Spec.suffix_entries,
    Spec.fixed_lines, Spec.optional_entries, Spec.header, Spec.entry,
    Spec.resources_entry, Spec.present.
  destruct w as [[dom addr u ver ch iss non st ex nb rid res] clk tk tr].
  destruct iss as [iss|];
    cbn [self domain address uri version chain_id issued_at nonce statement
         expiration_time not_before request_id resources
         set_self set_issued_at utcnow fst snd clock ticks];
    rewrite !or_int_1;
    generalize (Py.str_int (if ch =? 0 then 1 else ch)) as chain;
    generalize (isoformat (clk tk)) as now; intros now chain;
    destruct ex as [ex|]; destruct nb as [nb|];
    destruct rid as [[|c1 rid]|]; destruct res as [[|r rs]|];
    destruct st as [[|c2 st]|];
    cbn -[String.append Py.nl];
    rewrite ?append_assoc; reflexivity.
Qed.

Lemma prepare_message_frame (w : World) :
  Spec.same_except_issued_at (self w) (self (snd (prepare_message w))).
Proof.
  rewrite prepare_message_state.
  destruct (issued_at (self w)); repeat split; reflexivity.
Qed.

Lemma prepare_message_sets_issued_at (w : World) :
  issued_at (self (snd (prepare_message w))) <> None.
Proof.
  rewrite prepare_message_state.
  destruct (issued_at (self w)) eqn:E; [rewrite E|]; discriminate.
Qed.

Lemma layout_chain_line (m : SiwsMessage) :
  exists pre post,
    Spec.layout m =
      pre ++ Py.nl
      ++ ("Chain ID: " ++ Py.str_int (if chain_id m =? 0 then 1 else chain_id m))
      ++ Py.nl ++ post.
Proof.
  exists (Spec.prefix m ++ Py.nl ++ Py.nl
          ++ ("URI: " ++ uri m) ++ Py.nl ++ ("Version: " ++ version m)).
  exists (Py.join Py.nl (("Nonce: " ++ nonce m)
                         :: ("Issued At: " ++ str_opt_issued_at (issued_at m))
                         :: Spec.optional_entries m)).
  unfold Spec.layout, Spec.suffix_entries, Spec.fixed_lines.
  generalize (Spec.optional_entries m) as rest. intros rest.
  generalize (Py.str_int (if chain_id m =? 0 then 1 else chain_id m)) as chain.
  intros chain.
  cbn -[String.append Py.nl]. rewrite ?append_assoc. reflexivity.
Qed.

(** C5: the serialized message has the line "Chain ID: 1" when
    [chain_id] is 0 and the line "Chain ID: " followed by the decimal
    [chain_id] otherwise; a message serializes to the same text with
    [chain_id] 0 as with [chain_id] 1. *)
Theorem chain_id_line_defaults_to_1 :
  forall (w : World),
    let lines := Py.split_lines (fst (prepare_message w)) in
    (if chain_id (self w) =? 0 then In "Chain ID: 1" lines
     else In ("Chain ID: " ++ Py.str_int (chain_id (self w))) lines)
    /\ fst (prepare_message (set_self w (set_chain_id (self w) 0)))
       = fst (prepare_message (set_self w (set_chain_id (self w) 1))).
Proof.
  intros w lines. split.
  - subst lines. rewrite prepare_message_layout.
    destruct (prepare_message_frame w) as (_ & _ & _ & _ & Hch & _).
    destruct (layout_chain_line (self (snd (prepare_message w))))
      as (pre & post & ->).
    rewrite Hch.
    assert (Hfree : forall n,
               Re.free_of [Py.newline] ("Chain ID: " ++ Py.str_int n) = true).
    { intros n. rewrite ReFacts.free_of_app, str_int_no_newline. reflexivity. }
    destruct (chain_id (self w) =? 0).
    + apply (line_between pre ("Chain ID: " ++ Py.str_int 1) post), Hfree.
    + apply line_between, Hfree.
  - rewrite !prepare_message_layout, !prepare_message_state.
    destruct w as [m clk tk tr]. cbn [self set_self set_chain_id issued_at].
    destruct (issued_at m); reflexivity.
Qed.

(** C6 fails as stated: the entries of the suffix are not separated by
    blank lines. *)
Lemma suffix_entries_not_blank_line_separated :
  fst (prepare_message (Sample.world Sample.message))
  <> Spec.layout_blank_line_separated
       (self (snd (prepare_message (Sample.world Sample.message)))).
Proof. apply String.eqb_neq. vm_compute. reflexivity. Qed.

(** C6, amended: [prepare_message] returns the header line and the
    address line joined by one newline, then the statement as a
    paragraph of its own when there is one and a single newline when
    there is none, then a blank line, then the suffix, whose entries
    are separated by a single newline. *)
Theorem prepare_message_canonical_layout :
  forall (w : World),
    let m := self (snd (prepare_message w)) in
    fst (prepare_message w)
    = (Spec.header m ++ Py.nl ++ address m
       ++ match Spec.present (statement m) with
          | Some st => Py.nl ++ Py.nl ++ st
          | None => Py.nl
          end)
      ++ Py.nl ++ Py.nl
      ++ Py.join Py.nl (Spec.suffix_entries m).
Proof.
  intros w m. subst m. rewrite prepare_message_layout.
  unfold Spec.layout, Spec.prefix. now rewrite ?append_assoc.
Qed.

(** C7: [prepare_message] changes no field but [issued_at]; it leaves
    [issued_at] as it is when set (and then changes nothing and does
    not read the clock), and assigns it the text of the current UTC
    instant, read once, when unset; a second call changes nothing and
    returns the same text. *)
Theorem prepare_message_fills_issued_at_once :
  forall (w : World),
    let w1 := snd (prepare_message w) in
    Spec.same_except_issued_at (self w) (self w1)
    /\ issued_at (self w1)
       = match issued_at (self w) with
         | Some v => Some v
         | None => Some (IssuedStr (isoformat (clock w (ticks w))))
         end
    /\ match issued_at (self w) with
       | Some _ => w1 = w
       | None => ticks w1 = S (ticks w) /\ clock w1 = clock w
                 /\ trace w1 = trace w
       end
    /\ prepare_message w1 = (fst (prepare_message w), w1).
Proof.
  intros w w1. split; [apply prepare_message_frame|].
  assert (Hidem : prepare_message w1 = (fst (prepare_message w), w1)).
  { assert (Hs : snd (prepare_message w1) = w1).
    { rewrite prepare_message_state.
      pose proof (prepare_message_sets_issued_at w) as Hset. fold w1 in Hset.
      destruct (issued_at (self w1)); [reflexivity | congruence]. }
    rewrite (surjective_pairing (prepare_message w1)).
    rewrite prepare_message_layout, Hs, (prepare_message_layout w).
    reflexivity. }
  subst w1. revert Hidem. rewrite prepare_message_state.
  destruct (issued_at (self w)) eqn:E; intros Hidem.
  - rewrite E. auto.
  - repeat split; try reflexivity. assumption.
Qed.

Example prepare_message_full_sample :
  fst (prepare_message (Sample.world Sample.full_message))
  = "example.com wants you to sign in with your Solana account:" ++ Py.nl
    ++ "11111111111111111111111111111111" ++ Py.nl
    ++ Py.nl
    ++ "Sign in to Example." ++ Py.nl
    ++ Py.nl
    ++ "URI: https://example.com/login" ++ Py.nl
    ++ "Version: 1" ++ Py.nl
    ++ "Chain ID: 1" ++ Py.nl
    ++ "Nonce: abcdefgh" ++ Py.nl
    ++ "Issued At: 2024-06-01T12:00:00" ++ Py.nl
    ++ "Expiration Time: 2025-01-01T00:00:00Z" ++ Py.nl
    ++ "Not Before: 2024-01-01T00:00:00Z" ++ Py.nl
    ++ "Request ID: req-1" ++ Py.nl
    ++ "Resources:" ++ Py.nl
    ++ "- https://example.com/a" ++ Py.nl
    ++ "- https://example.com/b"
  /\ issued_at (self (snd (prepare_message (Sample.world Sample.full_message))))
     = Some (IssuedStr "2024-06-01T12:00:00").
Proof. split; reflexivity. Qed.

End Serialization.

(* ================================================================== *)
(** ** Verification *)

Section Verification.
Context {C : Collaborators}.




(** The comparisons raise nothing but [TypeError]. *)
Lemma datetime_le_raises (a b : datetime) (e : exn) :
  datetime_le a b = Raise e -> e = TypeError.
Proof.
  unfold datetime_le. destruct (datetime_cmp a b) as [[]|]; congruence.
Qed.

Lemma trace_emits (es : list event) :
  forall w, trace (emits es w) = (trace w ++ es)%list.
Proof.
  induction es as [|e es IH]; intros w; simpl.
  - now rewrite app_nil_r.
  - unfold emits in IH. rewrite IH. simpl. now rewrite <- app_assoc.
Qed.

(** The conditions of the source, by name. *)
Lemma differs_code (x : option string) (s : string) :
  Py.truthy_opt Py.truthy_str x && opt_str_ne x s = Spec.differs x s.
Proof. destruct x; reflexivity. Qed.

Lemma expired_code (vt : datetime) (m : SiwsMessage) :
  match expiration_time m with
  | Some t => and_then (truthy_custom t) (datetime_ge_custom vt t)
  | None => Ok false
  end = Spec.expired vt m.
Proof. unfold Spec.expired. destruct (expiration_time m); reflexivity. Qed.

Lemma not_yet_valid_code (vt : datetime) (m : SiwsMessage) :
  match not_before m with
  | Some t => and_then (truthy_custom t) (datetime_le vt (date t))
  | None => Ok false
  end = Spec.not_yet_valid vt m.
Proof. unfold Spec.not_yet_valid. destruct (not_before m); reflexivity. Qed.

Example datetime_cmp_samples :
  datetime_cmp (Aware (mk_datetime 2024 6 1 12 0 0 0) 0)
               (Aware (mk_datetime 2024 6 1 13 0 0 0) 3600) = Some Eq
  /\ datetime_cmp (Aware (mk_datetime 2024 3 1 0 0 0 0) 0)
                  (Aware (mk_datetime 2024 2 29 23 0 0 0) (-7200)) = Some Lt
  /\ datetime_cmp (Naive (mk_datetime 2024 6 1 12 0 0 0))
                  (Naive (mk_datetime 2024 6 1 12 0 0 1)) = Some Lt
  /\ datetime_cmp (Naive (mk_datetime 2024 6 1 12 0 0 0))
                  (Aware (mk_datetime 2024 6 1 12 0 0 0) 0) = None.
Proof. repeat split; reflexivity. Qed.

(** The expiration condition is false for a message without
    [expiration_time] and raises [TypeError] for every other. *)
Lemma expired_run (vt : datetime) (m : SiwsMessage) :
  Spec.expired vt m
  = match expiration_time m with
    | None => Ok false
    | Some _ => Raise TypeError
    end.
Proof. unfold Spec.expired. destruct (expiration_time m); reflexivity. Qed.

(** The [try] block of [verify]. *)
Abbreviation signature_stage m message signature :=
  (try_except_BadSignatureError
    (bind (call B58DecodeAddress (b58decode (address m))) (fun key =>
     bind (call NewVerifyKey (VerifyKey key)) (fun verify_key =>
     bind (call B58DecodeSignature (b58decode signature))
          (fun signature_bytes =>
     call VerifyKeyVerify
          (VerifyKey_verify verify_key message signature_bytes)))))).

Abbreviation all_checked :=
  [Checked CkDomain; Checked CkNonce; Checked CkExpiration;
   Checked CkNotBefore].

(** [verify], condition by condition. *)
Lemma verify_run (signature : string) (domain_arg nonce_arg : option string)
      (timestamp : option datetime) (w : World) :
  let w1 := snd (prepare_message w) in
  let m := self w1 in
  let vt := Spec.verification_time timestamp w1 in
  let w2 := match timestamp with Some _ => w1 | None => snd (utcnow w1) end in
  verify signature domain_arg nonce_arg timestamp w =
    if Spec.differs domain_arg (domain m)
    then (Raise DomainMismatch, emits (firstn 1 all_checked) w2)
    else if Spec.differs nonce_arg (nonce m)
    then (Raise NonceMismatch, emits (firstn 2 all_checked) w2)
    else
      match Spec.expired vt m with
      | Raise e => (Raise e, emits (firstn 3 all_checked) w2)
      | Ok true => (Raise ExpiredMessage, emits (firstn 3 all_checked) w2)
      | Ok false =>
          match Spec.not_yet_valid vt m with
          | Raise e => (Raise e, emits all_checked w2)
          | Ok true => (Raise NotYetValidMessage, emits all_checked w2)
          | Ok false =>
              signature_stage m (Py.encode (fst (prepare_message w)))
                              signature (emits all_checked w2)
          end
      end.
Proof.
  intros w1 m vt w2. subst w1 m vt w2.
  unfold verify, bind, run, get_self, cond, cond_raising, ret, raise.
  destruct (prepare_message w) as [text w1]. cbn [fst snd].
  destruct timestamp as [t|]; unfold utcnow;
    cbn [Spec.verification_time fst snd self];
    rewrite !differs_code, expired_code, not_yet_valid_code;
    (destruct (Spec.differs domain_arg _); [reflexivity|]);
    (destruct (Spec.differs nonce_arg _); [reflexivity|]);
    (destruct (Spec.expired _ _) as [[|]|]; try reflexivity);
    (destruct (Spec.not_yet_valid _ _) as [[|]|]; reflexivity).
Qed.

Abbreviation all_called :=
  [Called B58DecodeAddress; Called NewVerifyKey; Called B58DecodeSignature;
   Called VerifyKeyVerify].

(** The [try] block, call by call. *)
Lemma signature_stage_run (m : SiwsMessage) (message : list byte)
      (signature : string) (w : World) :
  signature_stage m message signature w =
    match Base58.b58decode (address m) with
    | None => (Raise ValueError, emits (firstn 1 all_called) w)
    | Some key =>
        if (List.length key =? 32)%nat then
          match Base58.b58decode signature with
          | None => (Raise ValueError, emits (firstn 3 all_called) w)
          | Some signature_bytes =>
              (if (List.length signature_bytes =? 64)%nat then
                 if crypto_sign_open key message signature_bytes
                 then Ok tt else Raise InvalidSignature
               else Raise ValueError,
               emits all_called w)
          end
        else (Raise ValueError, emits (firstn 2 all_called) w)
    end.
Proof.
  unfold try_except_BadSignatureError, bind, call,
    b58decode, VerifyKey, VerifyKey_verify.
  destruct (Base58.b58decode (address m)) as [key|]; [|reflexivity].
  destruct (List.length key =? 32)%nat; [|reflexivity].
  destruct (Base58.b58decode signature) as [sb|]; [|reflexivity].
  destruct (List.length sb =? 64)%nat; [|reflexivity].
  destruct (crypto_sign_open key message sb); reflexivity.
Qed.

Lemma checks_frame (domain_arg nonce_arg : option string) (vt : datetime)
      (w : World) :
  Spec.contextual_checks domain_arg nonce_arg vt
    (self (snd (prepare_message w)))
  = Spec.contextual_checks domain_arg nonce_arg vt (self w).
Proof.
  destruct (prepare_message_frame w)
    as (Hd & _ & _ & _ & _ & Hn & _ & He & Hb & _).
  unfold Spec.contextual_checks, Spec.expired, Spec.not_yet_valid.
  now rewrite Hd, Hn, He, Hb.
Qed.

Lemma trace_prepare_message (w : World) :
  trace (snd (prepare_message w)) = trace w.
Proof.
  rewrite prepare_message_state. destruct (issued_at (self w)); reflexivity.
Qed.

Lemma trace_after_clock (timestamp : option datetime) (w : World) :
  trace match timestamp with Some _ => w | None => snd (utcnow w) end
  = trace w.
Proof. destruct timestamp; reflexivity. Qed.

(** [verify] against the checks of the specification: the outcome and
    what was evaluated. *)
Lemma verify_first_failure (signature : string)
      (domain_arg nonce_arg : option string)
      (timestamp : option datetime) (w : World) :
  let vt := Spec.verification_time timestamp (snd (prepare_message w)) in
  let r := fst (verify signature domain_arg nonce_arg timestamp w) in
  let done := trace (snd (verify signature domain_arg nonce_arg timestamp w)) in
  match Spec.first_failure
          (Spec.contextual_checks domain_arg nonce_arg vt (self w)) with
  | (checked, Some e) => r = Raise e /\ done = (trace w ++ checked)%list
  | (checked, None) =>
      (r = Ok tt \/ r = Raise InvalidSignature \/ r = Raise ValueError)
      /\ exists calls,
          done = (trace w ++ checked
                  ++ map Called (B58DecodeAddress :: calls))%list
  end.
Proof.
  intros vt r done. subst r done.
  rewrite <- checks_frame. rewrite verify_run. fold vt.
  unfold Spec.contextual_checks, Spec.first_failure.
  destruct (Spec.differs domain_arg _);
    [|destruct (Spec.differs nonce_arg _);
      [|destruct (Spec.expired _ _) as [[|]|];
        [|destruct (Spec.not_yet_valid _ _) as [[|]|]|]]];
    cbn [fst snd];
    try (split; [reflexivity|];
         now rewrite trace_emits, trace_after_clock, trace_prepare_message).
  rewrite signature_stage_run.
  assert (Ht : forall k,
             trace (emits (firstn k all_called)
                      (emits all_checked
                         match timestamp with
                         | Some _ => snd (prepare_message w)
                         | None => snd (utcnow (snd (prepare_message w)))
                         end))
             = (trace w ++ all_checked ++ firstn k all_called)%list).
  { intros k.
    rewrite !trace_emits, trace_after_clock, trace_prepare_message.
    now rewrite <- app_assoc. }
  destruct (Base58.b58decode (address _)) as [key|]; cbn [fst snd].
  - destruct (List.length key =? 32)%nat; cbn [fst snd].
    + destruct (Base58.b58decode signature) as [sb|]; cbn [fst snd].
      * split.
        -- destruct (List.length sb =? 64)%nat; auto.
           destruct (crypto_sign_open _ _ _); auto.
        -- exists [NewVerifyKey; B58DecodeSignature; VerifyKeyVerify].
           apply (Ht 4%nat).
      * split; auto. exists [NewVerifyKey; B58DecodeSignature]. apply Ht.
    + split; auto. exists [NewVerifyKey]. apply Ht.
  - split; auto. exists []. apply Ht.
Qed.

(** C1, amended: [verify] evaluates the domain, nonce, expiration and
    not-before conditions in this order; the first that does not pass
    ends the call, with the error of its check when the condition holds,
    and nothing after it is evaluated; when all pass the signature stage
    follows, starting with the decoding of the address.  An expected
    domain or nonce counts as supplied when it is not empty.  In
    particular a non-empty expected domain that differs from the domain
    of the message raises [DomainMismatch] with no call into the codec
    or the signature primitive. *)
Theorem verify_checks_in_order :
  forall (signature : string) (domain_arg nonce_arg : option string)
         (timestamp : option datetime) (w : World),
    let vt := Spec.verification_time timestamp (snd (prepare_message w)) in
    let r := fst (verify signature domain_arg nonce_arg timestamp w) in
    let done :=
      trace (snd (verify signature domain_arg nonce_arg timestamp w)) in
    match Spec.first_failure
            (Spec.contextual_checks domain_arg nonce_arg vt (self w)) with
    | (checked, Some e) => r = Raise e /\ done = (trace w ++ checked)%list
    | (checked, None) =>
        (r = Ok tt \/ r = Raise InvalidSignature \/ r = Raise ValueError)
        /\ exists calls,
            done = (trace w ++ checked
                    ++ map Called (B58DecodeAddress :: calls))%list
    end
    /\ (Spec.differs domain_arg (domain (self w)) = true ->
        r = Raise DomainMismatch
        /\ done = (trace w ++ [Checked CkDomain])%list).
Proof.
  intros signature domain_arg nonce_arg timestamp w vt r done.
  pose proof (verify_first_failure signature domain_arg nonce_arg timestamp w)
    as H.
  split; [exact H|].
  intros Hd. cbv zeta in H. fold vt r done in H.
  unfold Spec.contextual_checks, Spec.first_failure in H.
  rewrite Hd in H. exact H.
Qed.


(** C4, the code at the failing inputs: for a message with
    [expiration_time], when the domain and nonce conditions hold,
    [verify] raises [TypeError] at the expiration condition, at, before
    and after the expiry, and not [ExpiredMessage]. *)
Theorem expiration_comparison_raises_TypeError :
  forall (signature : string) (domain_arg nonce_arg : option string)
         (timestamp : option datetime) (w : World) (T : CustomDateTime),
    expiration_time (self w) = Some T ->
    Spec.differs domain_arg (domain (self w)) = false ->
    Spec.differs nonce_arg (nonce (self w)) = false ->
    fst (verify signature domain_arg nonce_arg timestamp w) = Raise TypeError
    /\ trace (snd (verify signature domain_arg nonce_arg timestamp w))
       = (trace w
          ++ [Checked CkDomain; Checked CkNonce; Checked CkExpiration])%list.
Proof.
  intros signature domain_arg nonce_arg timestamp w T HT Hd Hn.
  pose proof (verify_first_failure signature domain_arg nonce_arg timestamp w)
    as H.
  cbv zeta in H.
  unfold Spec.contextual_checks, Spec.first_failure in H.
  rewrite Hd, Hn, expired_run, HT in H. exact H.
Qed.

(** The errors of the contextual checks: those of the four checks, and
    the [TypeError] of a comparison. *)
Lemma first_failure_errors (domain_arg nonce_arg : option string)
      (vt : datetime) (m : SiwsMessage) (e : exn) :
  snd (Spec.first_failure
         (Spec.contextual_checks domain_arg nonce_arg vt m)) = Some e ->
  e = DomainMismatch \/ e = NonceMismatch \/ e = ExpiredMessage
  \/ e = NotYetValidMessage \/ e = TypeError.
Proof.
  unfold Spec.contextual_checks, Spec.first_failure.
  rewrite expired_run.
  destruct (Spec.differs domain_arg _); [cbn; intros [= <-]; auto|].
  destruct (Spec.differs nonce_arg _); [cbn; intros [= <-]; auto|].
  destruct (expiration_time m); [cbn; intros [= <-]; auto 10|].
  destruct (Spec.not_yet_valid vt m) as [[|]|x] eqn:E;
    cbn; intros [= <-]; auto 10.
  unfold Spec.not_yet_valid in E. destruct (not_before m); [|discriminate].
  apply datetime_le_raises in E. auto 10.
Qed.

(** [verify] never raises the error the specification names for a
    decoding failure. *)
Lemma verify_never_malformed (signature : string)
      (domain_arg nonce_arg : option string)
      (timestamp : option datetime) (w : World) :
  fst (verify signature domain_arg nonce_arg timestamp w)
  <> Raise MalformedAddressOrSignature.
Proof.
  pose proof (verify_first_failure signature domain_arg nonce_arg timestamp w)
    as H.
  cbv zeta in H.
  pose proof (first_failure_errors domain_arg nonce_arg
                (Spec.verification_time timestamp (snd (prepare_message w)))
                (self w)) as He.
  destruct (Spec.first_failure _) as [checked [e|]].
  - destruct H as [H _]. rewrite H.
    destruct (He e eq_refl) as [-> | [-> | [-> | [-> | ->]]]]; discriminate.
  - destruct H as [[H | [H | H]] _]; rewrite H; discriminate.
Qed.

(** C2, amended: when all four contextual checks pass, so that the call
    reaches the decoding, and the address or the signature is not valid
    base-58, [verify] lets the [ValueError] of the library pass to the
    caller; it is neither [MalformedAddressOrSignature] nor
    [InvalidSignature]. *)
Theorem decode_failure_raises_ValueError :
  forall (signature : string) (domain_arg nonce_arg : option string)
         (timestamp : option datetime) (w : World),
    let vt := Spec.verification_time timestamp (snd (prepare_message w)) in
    let r := fst (verify signature domain_arg nonce_arg timestamp w) in
    snd (Spec.first_failure
           (Spec.contextual_checks domain_arg nonce_arg vt (self w))) = None ->
    Base58.b58decode (address (self w)) = None
    \/ Base58.b58decode signature = None ->
    r = Raise ValueError
    /\ r <> Raise MalformedAddressOrSignature
    /\ r <> Raise InvalidSignature.
Proof.
  intros signature domain_arg nonce_arg timestamp w vt r Hpass Hbad.
  assert (Hr : r = Raise ValueError).
  { subst r. rewrite verify_run.
    rewrite <- checks_frame in Hpass. fold vt in Hpass |- *.
    unfold Spec.contextual_checks, Spec.first_failure in Hpass.
    destruct (Spec.differs domain_arg _); [discriminate Hpass|].
    destruct (Spec.differs nonce_arg _); [discriminate Hpass|].
    destruct (Spec.expired _ _) as [[|]|]; try discriminate Hpass.
    destruct (Spec.not_yet_valid _ _) as [[|]|]; try discriminate Hpass.
    rewrite signature_stage_run.
    destruct (prepare_message_frame w) as (_ & Ha & _). rewrite Ha.
    destruct (Base58.b58decode (address (self w))) as [key|];
      [|reflexivity].
    destruct (List.length key =? 32)%nat; [|reflexivity].
    destruct Hbad as [Hbad | Hbad]; [discriminate Hbad|].
    rewrite Hbad. reflexivity. }
  rewrite Hr. repeat split; discriminate.
Qed.

End Verification.

(* ================================================================== *)
(** ** The properties at the sample values *)

#[local] Existing Instance Sample.collaborators.

(** An expected domain "evil.example" against "good.example". *)
Lemma verify_checks_in_order_witness :
  Spec.differs (Some "evil.example") (domain (self Sample.good)) = true
  /\ fst (verify "11" (Some "evil.example") None None Sample.good)
     = Raise DomainMismatch
  /\ trace (snd (verify "11" (Some "evil.example") None None Sample.good))
     = [Checked CkDomain].
Proof.
  split; [reflexivity|].
  apply (proj2 (verify_checks_in_order (C := Sample.collaborators)
                  "11" (Some "evil.example") None None Sample.good)).
  reflexivity.
Defined.

(** [verify] at three calls: an accepted signature with an aware timestamp
    after [not_before]; the same call without a timestamp, where the
    naive reading of the clock meets the aware [not_before]; and a
    message with an [expiration_time]. *)
Example verify_samples :
  fst (verify (C := MoreSamples.accepting) MoreSamples.signature64
         None None (Some Sample.noon) MoreSamples.opened) = Ok tt
  /\ fst (verify (C := MoreSamples.accepting) MoreSamples.signature64
            None None None MoreSamples.opened) = Raise TypeError
  /\ fst (verify (C := MoreSamples.accepting) MoreSamples.signature64
            None None (Some Sample.t0) Sample.closes_at_noon)
     = Raise TypeError.
Proof. repeat split; vm_compute; reflexivity. Qed.

(** C1 fails as stated: an empty expected domain differs from the domain
    of the message, and [verify] goes on to the decoding and to the
    signature primitive instead of raising [DomainMismatch]. *)
Lemma empty_expected_domain_is_not_checked :
  Some "" <> Some (domain (self Sample.good))
  /\ fst (verify "11" (Some "") None (Some Sample.noon) Sample.good)
     <> Raise DomainMismatch
  /\ trace (snd (verify "11" (Some "") None (Some Sample.noon) Sample.good))
     = [Checked CkDomain; Checked CkNonce; Checked CkExpiration;
        Checked CkNotBefore; Called B58DecodeAddress; Called NewVerifyKey;
        Called B58DecodeSignature; Called VerifyKeyVerify].
Proof.
  split; [discriminate|].
  split; [vm_compute; discriminate | vm_compute; reflexivity].
Qed.

(** C2 fails as stated: "0" is not valid base-58, and [verify] raises
    [ValueError] for it, not [MalformedAddressOrSignature]. *)
Lemma decode_failure_is_not_malformed :
  Base58.b58decode "0" = None
  /\ fst (verify "0" None None (Some Sample.noon) Sample.good) = Raise ValueError
  /\ fst (verify "0" None None (Some Sample.noon) Sample.good)
     <> Raise MalformedAddressOrSignature.
Proof.
  split; [reflexivity|].
  assert (H : fst (verify "0" None None (Some Sample.noon) Sample.good)
              = Raise ValueError) by (vm_compute; reflexivity).
  split; [exact H|]. rewrite H. discriminate.
Qed.

Lemma decode_failure_raises_ValueError_witness :
  snd (Spec.first_failure
         (Spec.contextual_checks None None Sample.noon (self Sample.good))) = None
  /\ Base58.b58decode "0" = None
  /\ fst (verify "0" None None (Some Sample.noon) Sample.good) = Raise ValueError.
Proof.
  split; [reflexivity|]. split; [reflexivity|].
  apply (proj1 (decode_failure_raises_ValueError (C := Sample.collaborators)
                  "0" None None (Some Sample.noon) Sample.good
                  eq_refl (or_intror eq_refl))).
Defined.


(** Verification at the very instant of [expiration_time]. *)
Lemma expiration_comparison_raises_TypeError_witness :
  expiration_time (self Sample.closes_at_noon) = Some Sample.at_noon
  /\ fst (verify "11" None None (Some Sample.noon) Sample.closes_at_noon)
     = Raise TypeError.
Proof.
  split; [reflexivity|].
  apply (proj1 (expiration_comparison_raises_TypeError
                  (C := Sample.collaborators)
                  "11" None None (Some Sample.noon) Sample.closes_at_noon
                  Sample.at_noon eq_refl eq_refl eq_refl)).
Defined.

(** A nonce of 7 characters, and one of 8. *)
Lemma nonce_min_length_inclusive_8_witness :
  SiwsMessage_init (PyDict Sample.fields) true = Ok Sample.message
  /\ SiwsMessage_init (PyDict (with_nonce Sample.fields "1234567")) true
     = Raise (ValidationError [(f_nonce, string_too_short)])
  /\ SiwsMessage_init (PyDict (with_nonce Sample.fields "12345678")) true
     = Ok (set_nonce Sample.message "12345678").
Proof.
  split; [reflexivity|]. split.
  - apply (nonce_min_length_inclusive_8 (C := Sample.collaborators)
             Sample.fields Sample.message "1234567" true eq_refl).
  - apply (nonce_min_length_inclusive_8 (C := Sample.collaborators)
             Sample.fields Sample.message "12345678" true eq_refl).
Defined.

(** The domains "a/b" and "a.b". *)
Lemma domain_pattern_enforced_witness :
  SiwsMessage_init (PyDict Sample.fields) true = Ok Sample.message
  /\ SiwsMessage_init (PyDict (with_domain Sample.fields "a/b")) true
     = Raise (ValidationError [(f_domain, string_pattern_mismatch)])
  /\ SiwsMessage_init (PyDict (with_domain Sample.fields "a.b")) true
     = Ok (set_domain Sample.message "a.b").
Proof.
  split; [reflexivity|]. split.
  - apply (domain_pattern_enforced (C := Sample.collaborators)
             Sample.fields Sample.message "a/b" true eq_refl).
  - apply (domain_pattern_enforced (C := Sample.collaborators)
             Sample.fields Sample.message "a.b" true eq_refl).
Defined.

(** An integer as the constructor argument. *)
Lemma init_rejects_other_types_witness :
  isinstance_str (PyInt 5) = false
  /\ isinstance_dict (PyInt 5) = false
  /\ SiwsMessage_init (PyInt 5) true = Raise TypeError.
Proof.
  split; [reflexivity|]. split; [reflexivity|].
  apply (init_rejects_other_types (C := Sample.collaborators) (PyInt 5) true); reflexivity.
Defined.

(* ================================================================== *)
(** ** More on construction *)

Section FieldRules.
Context {C : Collaborators}.

Ltac each_field H :=
  unfold SiwsMessage_init, BaseModel_init, validate_fields, pass in H;
  repeat match type of H with
    | context [inr _ <*> ?v] =>
        let E := fresh "E" in
        destruct v eqn:E; [cbn in H; discriminate H |];
        rewrite ap_inr in H
    end.

Ltac other_fields :=
  unfold SiwsMessage_init, BaseModel_init, validate_fields, pass;
  cbn [with_statement with_chain_id with_resources
       raw_domain raw_address raw_uri raw_version
       raw_chain_id raw_issued_at raw_nonce raw_statement
       raw_expiration_time raw_not_before raw_request_id raw_resources];
  repeat match goal with
    | E : ?v = inr _ |- context [?v] => rewrite E
    end;
  repeat rewrite ap_inr.

(** X1: a statement is optional; one that is given must be a single
    non-empty line, or construction fails with the pattern error of the
    statement. *)
Theorem statement_pattern_enforced :
  forall (d : RawFields) (m : SiwsMessage) (o : option string) (abnf : bool),
    SiwsMessage_init (PyDict d) abnf = Ok m ->
    SiwsMessage_init (PyDict (with_statement d o)) abnf =
      match o with
      | None => Ok (set_statement m None)
      | Some st =>
          if Canon.one_line st && negb (String.eqb st "")
          then Ok (set_statement m (Some st))
          else Raise (ValidationError [(f_statement, string_pattern_mismatch)])
      end.
Proof.
  intros d m o abnf H.
  each_field H. injection H as <-.
  other_fields.
  destruct o as [st|]; [|reflexivity].
  unfold validate_statement, optional, validate_pattern, statement_pattern.
  rewrite ReFacts.fullmatch_plus_none_of, andb_comm. unfold Canon.one_line.
  destruct (Re.free_of _ st && _); reflexivity.
Qed.

(** X2: a negative [chain_id] makes construction fail with the bound
    error of [chain_id]; zero and every positive value are accepted. *)
Theorem chain_id_non_negative :
  forall (d : RawFields) (m : SiwsMessage) (n : Z) (abnf : bool),
    SiwsMessage_init (PyDict d) abnf = Ok m ->
    SiwsMessage_init (PyDict (with_chain_id d n)) abnf =
      if n <? 0
      then Raise (ValidationError [(f_chain_id, greater_than_equal)])
      else Ok (set_chain_id m n).
Proof.
  intros d m n abnf H.
  each_field H. injection H as <-.
  other_fields.
  unfold validate_chain_id, required.
  destruct (Z.leb_spec 0 n), (Z.ltb_spec n 0); try lia; reflexivity.
Qed.

Lemma validate_urls_run (l : list string) :
  validate_urls l =
    match url_errors l with
    | [] => inr (url_texts l)
    | es => inl es
    end.
Proof.
  induction l as [|s l IH]; [reflexivity|].
  cbn [validate_urls]. rewrite IH.
  change (url_errors (s :: l))
    with (match any_url s with
          | Some _ => []
          | None => [(f_resources, url_parsing)]
          end ++ url_errors l)%list.
  change (url_texts (s :: l))
    with (match any_url s with Some u => [u] | None => [] end
          ++ url_texts l)%list.
  destruct (any_url s) as [u|]; destruct (url_errors l); reflexivity.
Qed.

(** X3: the resources are optional; an empty list fails with the length
    error, a list with an entry that is no URL fails with one URL error
    for each such entry, and a list of URLs is kept as the texts of the
    validated URLs. *)
Theorem resources_validated :
  forall (d : RawFields) (m : SiwsMessage) (o : option (list string))
         (abnf : bool),
    SiwsMessage_init (PyDict d) abnf = Ok m ->
    SiwsMessage_init (PyDict (with_resources d o)) abnf =
      match o with
      | None => Ok (set_resources m None)
      | Some [] => Raise (ValidationError [(f_resources, too_short)])
      | Some l =>
          match url_errors l with
          | [] => Ok (set_resources m (Some (url_texts l)))
          | es => Raise (ValidationError es)
          end
      end.
Proof.
  intros d m o abnf H.
  each_field H. injection H as <-.
  other_fields.
  destruct o as [[|url l]|]; try reflexivity.
  unfold validate_resources, optional. rewrite validate_urls_run.
  destruct (url_errors (url :: l)); reflexivity.
Qed.

End FieldRules.

Section Constructed.
Context {C : Collaborators}.

Lemma required_inr {A B} (f : field) (v : option A) (k : A -> checked B)
      (b : B) :
  required f v k = inr b -> exists a, v = Some a /\ k a = inr b.
Proof. destruct v as [a|]; simpl; [eauto | discriminate]. Qed.

Lemma optional_inr {A B} (v : option A) (k : A -> checked B) (o : option B) :
  optional v k = inr o ->
  match v, o with
  | None, None => True
  | Some a, Some b => k a = inr b
  | _, _ => False
  end.
Proof.
  destruct v as [a|]; simpl.
  - destruct (k a); [discriminate|]. now intros [= <-].
  - now intros [= <-].
Qed.

Lemma validate_datetime_inr (f : field) (s : string) (c : CustomDateTime) :
  validate_datetime f s = inr c ->
  text c = s /\ parse_datetime s = Some (date c).
Proof.
  unfold validate_datetime. destruct (parse_datetime s); [|discriminate].
  intros [= <-]. auto.
Qed.

Lemma optional_datetime_inr (f : field) (v : option string)
      (o : option CustomDateTime) :
  optional v (validate_datetime f) = inr o ->
  option_map text o = v
  /\ forall c, o = Some c -> parse_datetime (text c) = Some (date c).
Proof.
  intros H. apply optional_inr in H.
  destruct v as [s|], o as [c|]; try contradiction.
  - apply validate_datetime_inr in H as [<- H]. split; [reflexivity|].
    now intros c' [= <-].
  - split; [reflexivity | discriminate].
Qed.

(** What a mapping that validates says about the message built from it. *)
Lemma BaseModel_init_Ok (d : RawFields) (m : SiwsMessage) :
  BaseModel_init d = Ok m ->
  (raw_domain d = Some (domain m)
   /\ Re.fullmatch domain_pattern (domain m) = true)
  /\ raw_address d = Some (address m)
  /\ (raw_uri d = Some (uri m) /\ any_url (uri m) <> None)
  /\ raw_version d = Some (version m)
  /\ (raw_chain_id d = Some (chain_id m) /\ 0 <= chain_id m)
  /\ (exists c, issued_at m = Some (IssuedCustom c)
                /\ raw_issued_at d = Some (text c)
                /\ parse_datetime (text c) = Some (date c))
  /\ (raw_nonce d = Some (nonce m) /\ (8 <= String.length (nonce m))%nat)
  /\ (raw_statement d = statement m
      /\ forall st, statement m = Some st ->
                    Re.fullmatch statement_pattern st = true)
  /\ (option_map text (expiration_time m) = raw_expiration_time d
      /\ forall c, expiration_time m = Some c ->
                   parse_datetime (text c) = Some (date c))
  /\ (option_map text (not_before m) = raw_not_before d
      /\ forall c, not_before m = Some c ->
                   parse_datetime (text c) = Some (date c))
  /\ raw_request_id d = request_id m
  /\ match raw_resources d with
     | None => resources m = None
     | Some l => l <> [] /\ url_errors l = []
                 /\ resources m = Some (url_texts l)
     end.
Proof.
  intros H.
  unfold BaseModel_init, validate_fields, pass in H.
  repeat match type of H with
    | context [inr _ <*> ?v] =>
        let E := fresh "E" in
        destruct v eqn:E; [cbn in H; discriminate H |];
        rewrite ap_inr in H
    end.
  injection H as <-. cbn [domain address uri version chain_id issued_at nonce
                          statement expiration_time not_before request_id
                          resources].
  repeat match goal with |- _ /\ _ => split end.
  - apply required_inr in E as (a & -> & E). unfold validate_pattern in E.
    destruct (Re.fullmatch domain_pattern a); now inversion E.
  - apply required_inr in E as (a & _ & E). unfold validate_pattern in E.
    destruct (Re.fullmatch domain_pattern a) eqn:F; inversion E; now subst.
  - apply required_inr in E0 as (a & -> & [= <-]). reflexivity.
  - apply required_inr in E1 as (a & -> & E1).
    destruct (any_url a); now inversion E1.
  - apply required_inr in E1 as (a & _ & E1).
    destruct (any_url a) eqn:F; inversion E1; subst. congruence.
  - apply required_inr in E2 as (a & -> & [= <-]). reflexivity.
  - apply required_inr in E3 as (a & -> & E3).
    destruct (0 <=? a); now inversion E3.
  - apply required_inr in E3 as (a & _ & E3).
    destruct (Z.leb_spec 0 a); inversion E3; now subst.
  - apply required_inr in E4 as (a & -> & E4).
    destruct (validate_datetime f_issued_at a) as [|c] eqn:F; [discriminate|].
    injection E4 as <-. apply validate_datetime_inr in F as [<- F]. eauto.
  - apply required_inr in E5 as (a & -> & E5). unfold nonce_min_length in E5.
    destruct (8 <=? String.length a)%nat; now inversion E5.
  - apply required_inr in E5 as (a & _ & E5). unfold nonce_min_length in E5.
    destruct (Nat.leb_spec 8 (String.length a)); inversion E5; now subst.
  - apply optional_inr in E6. unfold validate_pattern in E6.
    destruct (raw_statement d) as [a|], o0 as [b|]; try contradiction; auto.
    destruct (Re.fullmatch statement_pattern a); now inversion E6.
  - intros st ->. apply optional_inr in E6. unfold validate_pattern in E6.
    destruct (raw_statement d) as [a|]; [|contradiction].
    destruct (Re.fullmatch statement_pattern a) eqn:F; inversion E6; now subst.
  - now apply optional_datetime_inr in E7.
  - now apply optional_datetime_inr in E7.
  - now apply optional_datetime_inr in E8.
  - now apply optional_datetime_inr in E8.
  - apply optional_inr in E9.
    destruct (raw_request_id d), o3; try contradiction; [|reflexivity].
    now inversion E9.
  - apply optional_inr in E10.
    destruct (raw_resources d) as [[|url l]|], o4 as [rs|];
      try contradiction; try discriminate; [|reflexivity].
    rewrite validate_urls_run in E10.
    destruct (url_errors (url :: l)); [|discriminate].
    injection E10 as <-. repeat split. discriminate.
Qed.

Lemma url_texts_nonempty (l : list string) :
  l <> [] -> url_errors l = [] -> url_texts l <> [].
Proof.
  destruct l as [|s l]; [congruence|]. intros _.
  unfold url_errors, url_texts. cbn [flat_map].
  destruct (any_url s); [discriminate|]. simpl. discriminate.
Qed.

(** X4: whatever it is constructed from, a message that exists satisfies
    the rules of its fields: the domain is not empty and has none of
    '/', '?', '#'; the uri is a URL; the chain id is not negative;
    [issued_at] is set; the nonce has 8 characters or more; a statement
    is one non-empty line; a list of resources is not empty. *)
Theorem constructed_message_is_valid :
  forall (message : py_value) (abnf : bool) (m : SiwsMessage),
    SiwsMessage_init message abnf = Ok m ->
    (domain m <> "" /\ Re.free_of ["/"; "?"; "#"]%char (domain m) = true)
    /\ any_url (uri m) <> None
    /\ 0 <= chain_id m
    /\ (exists c, issued_at m = Some (IssuedCustom c))
    /\ (8 <= String.length (nonce m))%nat
    /\ (forall st, statement m = Some st ->
                   st <> "" /\ Canon.one_line st = true)
    /\ (forall rs, resources m = Some rs -> rs <> []).
Proof.
  intros message abnf m H.
  assert (Hd : exists d, BaseModel_init d = Ok m).
  { destruct message; simpl in H; try discriminate; [|eauto].
    destruct (if abnf then ABNFParsedMessage s else RegExpParsedMessage s);
      [eauto | discriminate]. }
  destruct Hd as (d & Hd).
  apply BaseModel_init_Ok in Hd
    as ((_ & Hdom) & _ & (_ & Huri) & _ & (_ & Hch) & (c & Hiss & _)
        & (_ & Hn) & (_ & Hst) & _ & _ & _ & Hres).
  unfold domain_pattern in Hdom.
  rewrite ReFacts.fullmatch_plus_none_of in Hdom.
  apply andb_true_iff in Hdom as [Hne Hfree].
  apply negb_true_iff, String.eqb_neq in Hne.
  repeat match goal with |- _ /\ _ => split end; eauto.
  - intros st E. specialize (Hst st E). unfold statement_pattern in Hst.
    rewrite ReFacts.fullmatch_plus_none_of in Hst.
    apply andb_true_iff in Hst as [Hs1 Hs2].
    apply negb_true_iff, String.eqb_neq in Hs1. auto.
  - intros rs E. destruct (raw_resources d) as [l|].
    + destruct Hres as (Hl & He & Hr). rewrite Hr in E. injection E as <-.
      now apply url_texts_nonempty.
    + congruence.
Qed.

(** X5: construction from a mapping rewrites no text: every string field
    of the message is the string of the mapping, the uri included
    (validated as a URL, kept as written), and the three timestamps
    render as the strings they were given as. *)
Theorem construction_keeps_texts :
  forall (d : RawFields) (abnf : bool) (m : SiwsMessage),
    SiwsMessage_init (PyDict d) abnf = Ok m ->
    raw_domain d = Some (domain m)
    /\ raw_address d = Some (address m)
    /\ raw_uri d = Some (uri m)
    /\ raw_version d = Some (version m)
    /\ raw_chain_id d = Some (chain_id m)
    /\ raw_nonce d = Some (nonce m)
    /\ raw_statement d = statement m
    /\ raw_request_id d = request_id m
    /\ raw_issued_at d = option_map str_issued_at (issued_at m)
    /\ raw_expiration_time d = option_map text (expiration_time m)
    /\ raw_not_before d = option_map text (not_before m).
Proof.
  intros d abnf m H. simpl in H.
  apply BaseModel_init_Ok in H
    as ((Hdom & _) & Haddr & (Huri & _) & Hver & (Hch & _)
        & (c & Hiss & Hraw & _) & (Hn & _) & (Hst & _) & (Hex & _)
        & (Hnb & _) & Hrid & _).
  rewrite Hiss. simpl. repeat split; auto.
Qed.

Lemma checked_inl {A} (c : checked A) :
  errors_of c <> [] -> c = inl (errors_of c).
Proof. destruct c; simpl; congruence. Qed.

(** X6: a mapping without the key of a field that has no default
    (domain, address, uri, version, chain_id, issued_at, nonce) makes
    construction fail with a validation error that reports the field as
    missing. *)
Theorem missing_required_key :
  forall (d : RawFields) (f : field) (abnf : bool),
    In f Canon.required_fields ->
    Canon.absent f d = true ->
    exists es,
      SiwsMessage_init (PyDict d) abnf = Raise (ValidationError es)
      /\ In (f, missing) es.
Proof.
  intros d f abnf Hf Habs.
  assert (Hin : In (f, missing) (errors_of (validate_fields d))).
  { unfold validate_fields. rewrite !errors_of_ap, !in_app_iff.
    simpl in Hf.
    repeat destruct Hf as [<- | Hf]; try contradiction;
      unfold Canon.absent, Canon.is_none in Habs.
    - destruct (raw_domain d); [discriminate|]. simpl. tauto.
    - destruct (raw_address d); [discriminate|]. simpl. tauto.
    - destruct (raw_uri d); [discriminate|]. simpl. tauto.
    - destruct (raw_version d); [discriminate|]. simpl. tauto.
    - destruct (raw_chain_id d); [discriminate|]. simpl. tauto.
    - destruct (raw_issued_at d); [discriminate|]. simpl. tauto.
    - destruct (raw_nonce d); [discriminate|]. simpl. tauto. }
  exists (errors_of (validate_fields d)). split; [|exact Hin].
  simpl. unfold BaseModel_init.
  rewrite (checked_inl (validate_fields d)); [reflexivity|].
  intros E. rewrite E in Hin. contradiction.
Qed.

End Constructed.

(* ================================================================== *)
(** ** More on serialization *)

Section Canonical.

Lemma zeros_one_line (k : nat) : Canon.one_line (Py.zeros k) = true.
Proof. induction k as [|k IH]; [reflexivity | exact IH]. Qed.

Lemma zfill_one_line (width : nat) (n : Z) :
  Re.free_of [Py.newline] (Py.zfill width (Py.str_int n)) = true.
Proof.
  unfold Py.zfill.
  rewrite ReFacts.free_of_app, str_int_no_newline.
  now rewrite (zeros_one_line _).
Qed.

Lemma isoformat_one_line (t : naive_datetime) :
  Canon.one_line (isoformat t) = true.
Proof.
  unfold isoformat, Canon.one_line.
  destruct (Py.truthy_int (microsecond t));
    rewrite !ReFacts.free_of_app, !zfill_one_line; reflexivity.
Qed.

Lemma split_lines_join (ls : list string) :
  ls <> [] -> forallb Canon.one_line ls = true ->
  Py.split_lines (Py.join Py.nl ls) = ls.
Proof.
  induction ls as [|x [|y tl] IH]; intros Hne H; [congruence| |].
  - simpl in H. rewrite andb_true_r in H. now apply split_lines_single.
  - change (Py.join Py.nl (x :: y :: tl))
      with (x ++ Py.nl ++ Py.join Py.nl (y :: tl)).
    cbn [forallb] in H. apply andb_true_iff in H as [Hx H].
    rewrite split_lines_app, (split_lines_single x Hx), IH;
      [reflexivity | discriminate | exact H].
Qed.

(** The serialized message is its lines joined by newlines. *)
Lemma layout_join (m : SiwsMessage) :
  Spec.layout m = Py.join Py.nl (Canon.lines m).
Proof.
  unfold Canon.lines, Canon.statement_lines, Canon.resources_lines,
    Canon.nonempty, Spec.layout, Spec.prefix, Spec.suffix_entries,
    Spec.fixed_lines, Spec.optional_entries, Spec.header, Spec.entry,
    Spec.resources_entry.
  destruct m as [dom addr u ver ch iss non st ex nb rid res].
  cbn [domain address uri version chain_id issued_at nonce statement
       expiration_time not_before request_id resources].
  generalize (Py.str_int (if ch =? 0 then 1 else ch)) as chain.
  generalize (str_opt_issued_at iss) as issued. intros issued chain.
  destruct (Spec.present st) as [st'|];
    destruct ex as [ex|]; destruct nb as [nb|];
    destruct (Spec.present rid) as [rid'|]; destruct res as [[|r rs]|];
    cbn -[String.append Py.nl];
    rewrite ?append_assoc; reflexivity.
Qed.

Lemma forallb_one_line_bullets (rs : list string) :
  forallb Canon.one_line rs = true ->
  forallb Canon.one_line (map Canon.bullet rs) = true.
Proof.
  induction rs as [|r rs IH]; [reflexivity|].
  cbn [forallb map]. intros H. apply andb_true_iff in H as [Hr H].
  rewrite IH by exact H. unfold Canon.bullet, Canon.one_line.
  rewrite ReFacts.free_of_app. unfold Canon.one_line in Hr. now rewrite Hr.
Qed.

Lemma one_line_label (label s : string) :
  Canon.one_line label = true -> Canon.one_line s = true ->
  Canon.one_line (label ++ s) = true.
Proof.
  unfold Canon.one_line. intros Hl Hs.
  now rewrite ReFacts.free_of_app, Hl, Hs.
Qed.

Lemma present_one_line (o : option string) :
  Canon.one_line_opt o = true -> Canon.one_line_opt (Spec.present o) = true.
Proof. destruct o as [[|c s]|]; auto. Qed.

Lemma lines_one_line (m : SiwsMessage) :
  issued_at m <> None ->
  Canon.one_line_fields m = true ->
  forallb Canon.one_line (Canon.lines m) = true.
Proof.
  intros Hset H. unfold Canon.one_line_fields in H.
  repeat rewrite andb_true_iff in H.
  destruct H as ((((((((((Hdom & Haddr) & Huri) & Hver) & Hnon) & Hst)
                       & Hiss) & Hex) & Hnb) & Hrid) & Hres).
  destruct (issued_at m) as [iss|] eqn:Ei; [|congruence].
  cbn [option_map Canon.one_line_opt] in Hiss.
  assert (Hheader : Canon.one_line (Spec.header m) = true)
    by (apply one_line_label; [exact Hdom | reflexivity]).
  assert (Hfixed : forallb Canon.one_line (Spec.fixed_lines m) = true).
  { unfold Spec.fixed_lines. rewrite Ei. cbn [forallb str_opt_issued_at].
    rewrite (one_line_label "URI: " _ eq_refl Huri).
    rewrite (one_line_label "Version: " _ eq_refl Hver).
    rewrite (one_line_label "Chain ID: " _ eq_refl (str_int_no_newline _)).
    rewrite (one_line_label "Nonce: " _ eq_refl Hnon).
    rewrite (one_line_label "Issued At: " _ eq_refl Hiss).
    reflexivity. }
  assert (Hstl : forallb Canon.one_line (Canon.statement_lines m) = true).
  { unfold Canon.statement_lines. apply present_one_line in Hst.
    destruct (Spec.present (statement m)); cbn in *; [now rewrite Hst|auto]. }
  assert (Hridl : forallb Canon.one_line
                    (Spec.entry "Request ID: " (Spec.present (request_id m)))
                  = true).
  { apply present_one_line in Hrid.
    destruct (Spec.present (request_id m)) as [r|]; [|reflexivity].
    cbn [Spec.entry forallb]. cbn in Hrid.
    now rewrite (one_line_label "Request ID: " r eq_refl Hrid). }
  assert (Hexl : forallb Canon.one_line
                   (Spec.entry "Expiration Time: "
                      (option_map text (expiration_time m))) = true).
  { destruct (expiration_time m) as [t|]; [|reflexivity].
    cbn [Spec.entry forallb option_map]. cbn in Hex.
    now rewrite (one_line_label "Expiration Time: " (text t) eq_refl Hex). }
  assert (Hnbl : forallb Canon.one_line
                   (Spec.entry "Not Before: "
                      (option_map text (not_before m))) = true).
  { destruct (not_before m) as [t|]; [|reflexivity].
    cbn [Spec.entry forallb option_map]. cbn in Hnb.
    now rewrite (one_line_label "Not Before: " (text t) eq_refl Hnb). }
  assert (Hresl : forallb Canon.one_line (Canon.resources_lines (resources m))
                  = true).
  { unfold Canon.resources_lines, Canon.nonempty.
    destruct (resources m) as [[|r rs]|]; try reflexivity.
    cbn [forallb]. now rewrite forallb_one_line_bullets. }
  unfold Canon.lines. rewrite !forallb_app. cbn [forallb].
  rewrite Hheader, Haddr, Hstl, Hfixed, Hexl, Hnbl, Hridl, Hresl.
  reflexivity.
Qed.

Lemma one_line_fields_kept (w : World) :
  Canon.one_line_fields (self w) = true ->
  Canon.one_line_fields (self (snd (prepare_message w))) = true.
Proof.
  rewrite prepare_message_state.
  destruct (issued_at (self w)) eqn:E; [auto|].
  unfold Canon.one_line_fields.
  cbn [self set_self set_issued_at utcnow fst snd domain address uri version
       nonce statement issued_at expiration_time not_before request_id
       resources option_map Canon.one_line_opt str_issued_at].
  rewrite E, isoformat_one_line. auto.
Qed.

Lemma split_lines_prepare_message (w : World) :
  Canon.one_line_fields (self w) = true ->
  Py.split_lines (fst (prepare_message w))
  = Canon.lines (self (snd (prepare_message w))).
Proof.
  intros H.
  rewrite prepare_message_layout, layout_join.
  apply split_lines_join.
  - unfold Canon.lines. discriminate.
  - apply lines_one_line.
    + apply prepare_message_sets_issued_at.
    + now apply one_line_fields_kept.
Qed.

(** X7: when no field has a newline in it, the lines of the serialized
    message are, in this order: the header, the address, an empty line,
    the statement and an empty line (or one more empty line when there
    is no statement), the lines of URI, Version, Chain ID, Nonce and
    Issued At, then those of Expiration Time, Not Before and Request ID
    that are present, then "Resources:" and one line for each
    resource. *)
Theorem serialized_line_by_line :
  forall (w : World),
    Canon.one_line_fields (self w) = true ->
    Py.split_lines (fst (prepare_message w))
    = Canon.lines (self (snd (prepare_message w))).
Proof. exact split_lines_prepare_message. Qed.

(** X8: an optional field with a falsy value is serialized as an absent
    one: an empty statement, an empty request id and an empty list of
    resources leave no line in the message. *)
Theorem falsy_fields_are_dropped :
  forall (w : World),
    fst (prepare_message (set_self w (Canon.drop_falsy (self w))))
    = fst (prepare_message w).
Proof.
  intros [[dom addr u ver ch iss non st ex nb rid res] clk tk tr].
  unfold prepare_message, Canon.drop_falsy.
  cbn [self set_self domain address uri version chain_id issued_at nonce
       statement expiration_time not_before request_id resources].
  destruct iss as [iss|];
    destruct st as [[|c1 st]|]; destruct rid as [[|c2 rid]|];
    destruct res as [[|r rs]|]; reflexivity.
Qed.

Lemma append_length (a b : string) :
  String.length (a ++ b) = (String.length a + String.length b)%nat.
Proof. induction a as [|c a IH]; simpl; [reflexivity | now rewrite IH]. Qed.

Lemma append_inv_r (x y r : string) : x ++ r = y ++ r -> x = y.
Proof.
  revert y. induction x as [|c x IH]; intros [|d y] H; simpl in H.
  - reflexivity.
  - apply (f_equal String.length) in H. simpl in H.
    rewrite append_length in H. lia.
  - apply (f_equal String.length) in H. simpl in H.
    rewrite append_length in H. lia.
  - injection H as -> H. f_equal. auto.
Qed.

Lemma map_bullet_inj (a b : list string) :
  map Canon.bullet a = map Canon.bullet b -> a = b.
Proof.
  revert b. induction a as [|x a IH]; intros [|y b] H; simpl in H;
    try discriminate; [reflexivity|].
  injection H as Hx H. f_equal; auto.
Qed.

Lemma present_not_empty (o : option string) : Spec.present o <> Some "".
Proof. destruct o as [[|c s]|]; discriminate. Qed.

Lemma optional_lines_inj (x1 x2 n1 n2 r1 r2 : option string)
      (res1 res2 : option (list AnyUrl)) :
  (Spec.entry "Expiration Time: " x1 ++ Spec.entry "Not Before: " n1
   ++ Spec.entry "Request ID: " r1 ++ Canon.resources_lines res1
   = Spec.entry "Expiration Time: " x2 ++ Spec.entry "Not Before: " n2
     ++ Spec.entry "Request ID: " r2 ++ Canon.resources_lines res2)%list ->
  x1 = x2 /\ n1 = n2 /\ r1 = r2 /\ Canon.nonempty res1 = Canon.nonempty res2.
Proof.
  unfold Canon.resources_lines.
  destruct (Canon.nonempty res1) as [[|u1 l1]|] eqn:E1;
    try (destruct res1 as [[|? ?]|]; discriminate E1);
    destruct (Canon.nonempty res2) as [[|u2 l2]|] eqn:E2;
    try (destruct res2 as [[|? ?]|]; discriminate E2);
    destruct x1, x2, n1, n2, r1, r2; cbn; intros H;
    try discriminate H;
    inversion H; subst;
    repeat match goal with
      | M : map Canon.bullet _ = map Canon.bullet _ |- _ =>
          apply map_bullet_inj in M; subst
      end;
    auto.
Qed.

(** Messages with the same lines show the same of their fields. *)
Lemma lines_inj (m1 m2 : SiwsMessage) :
  Canon.lines m1 = Canon.lines m2 -> Canon.rendered m1 = Canon.rendered m2.
Proof.
  destruct m1 as [dom1 addr1 u1 ver1 ch1 iss1 non1 st1 ex1 nb1 rid1 res1].
  destruct m2 as [dom2 addr2 u2 ver2 ch2 iss2 non2 st2 ex2 nb2 rid2 res2].
  unfold Canon.lines, Canon.rendered, Canon.statement_lines,
    Spec.fixed_lines, Spec.header.
  cbn [domain address uri version chain_id issued_at nonce statement
       expiration_time not_before request_id resources].
  rewrite <- !or_int_1.
  pose proof (present_not_empty st1) as P1.
  pose proof (present_not_empty st2) as P2.
  revert P1 P2.
  generalize (Spec.present st1) as p1. generalize (Spec.present st2) as p2.
  generalize (Spec.present rid1) as r1. generalize (Spec.present rid2) as r2.
  generalize (option_map text ex1) as x1. generalize (option_map text ex2) as x2.
  generalize (option_map text nb1) as n1. generalize (option_map text nb2) as n2.
  intros n2 n1 x2 x1 r2 r1 p2 p1 P1 P2 H.
  cbn [app] in H. injection H as Hh Ha H.
  apply append_inv_r in Hh. subst dom2 addr2.
  assert (Hrest :
    p1 = p2
    /\ (u1 = u2 /\ ver1 = ver2
        /\ Py.str_int (Py.or_int ch1 1) = Py.str_int (Py.or_int ch2 1)
        /\ non1 = non2
        /\ str_opt_issued_at iss1 = str_opt_issued_at iss2)
    /\ (Spec.entry "Expiration Time: " x1 ++ Spec.entry "Not Before: " n1
        ++ Spec.entry "Request ID: " r1 ++ Canon.resources_lines res1
        = Spec.entry "Expiration Time: " x2 ++ Spec.entry "Not Before: " n2
          ++ Spec.entry "Request ID: " r2 ++ Canon.resources_lines res2)%list).
  { destruct p1 as [s1|], p2 as [s2|]; cbn [app] in H.
    - injection H as -> H1 H2 H3 H4 H5 H6. auto 10.
    - injection H as -> _. congruence.
    - injection H as <- _. congruence.
    - injection H as H1 H2 H3 H4 H5 H6. auto 10. }
  destruct Hrest as (-> & (Hu & Hv & Hc & Hn & Hi) & Hopt).
  apply str_int_inj in Hc.
  apply optional_lines_inj in Hopt as (-> & -> & -> & ->).
  congruence.
Qed.

(** X9: the serialized text determines what it shows.  Two messages
    without a newline in any field that serialize to the same text have
    the same domain, address, statement, uri, version, nonce, the same
    chain id (0 read as 1), the same texts of [issued_at],
    [expiration_time] and [not_before], the same request id and the same
    resources (falsy values read as absent). *)
Theorem serialization_determines_fields :
  forall (w1 w2 : World),
    Canon.one_line_fields (self w1) = true ->
    Canon.one_line_fields (self w2) = true ->
    fst (prepare_message w1) = fst (prepare_message w2) ->
    Canon.rendered (self (snd (prepare_message w1)))
    = Canon.rendered (self (snd (prepare_message w2))).
Proof.
  intros w1 w2 H1 H2 H.
  apply lines_inj.
  rewrite <- (split_lines_prepare_message w1 H1).
  rewrite <- (split_lines_prepare_message w2 H2).
  now rewrite H.
Qed.

End Canonical.

(* ================================================================== *)
(** ** More on verification *)

Section Outcomes.
Context {C : Collaborators}.

Lemma emits_keeps (es : list event) :
  forall w, self (emits es w) = self w
            /\ clock (emits es w) = clock w
            /\ ticks (emits es w) = ticks w.
Proof.
  induction es as [|e es IH]; intros w; [auto|].
  unfold emits in *. cbn [fold_left]. now rewrite !(proj1 (IH _)),
    !(proj1 (proj2 (IH _))), !(proj2 (proj2 (IH _))).
Qed.

Lemma verify_outcome_frame (signature : string)
      (domain_arg nonce_arg : option string) (vt : datetime)
      (m m' : SiwsMessage) (serialized : string) :
  Spec.same_except_issued_at m m' ->
  verify_outcome signature domain_arg nonce_arg vt m' serialized
  = verify_outcome signature domain_arg nonce_arg vt m serialized.
Proof.
  intros (Hd & Ha & _ & _ & _ & Hn & _ & He & Hb & _).
  unfold verify_outcome, Spec.contextual_checks, Spec.expired,
    Spec.not_yet_valid.
  now rewrite Hd, Ha, Hn, He, Hb.
Qed.

(** The outcome of [verify], and the state it leaves. *)
Lemma verify_result (signature : string) (domain_arg nonce_arg : option string)
      (timestamp : option datetime) (w : World) :
  let w1 := snd (prepare_message w) in
  fst (verify signature domain_arg nonce_arg timestamp w)
  = verify_outcome signature domain_arg nonce_arg
      (Spec.verification_time timestamp w1) (self w)
      (fst (prepare_message w))
  /\ self (snd (verify signature domain_arg nonce_arg timestamp w)) = self w1
  /\ clock (snd (verify signature domain_arg nonce_arg timestamp w)) = clock w
  /\ ticks (snd (verify signature domain_arg nonce_arg timestamp w))
     = match timestamp with
       | Some _ => ticks w1
       | None => S (ticks w1)
       end.
Proof.
  intros w1.
  rewrite <- (verify_outcome_frame _ _ _ _ _ _ _ (prepare_message_frame w)).
  fold w1. rewrite verify_run. fold w1.
  assert (Hc : clock w1 = clock w).
  { subst w1. rewrite prepare_message_state.
    destruct (issued_at (self w)); reflexivity. }
  set (w2 := match timestamp with Some _ => w1 | None => snd (utcnow w1) end).
  assert (Hw2 : self w2 = self w1 /\ clock w2 = clock w
                /\ ticks w2 = match timestamp with
                              | Some _ => ticks w1
                              | None => S (ticks w1)
                              end).
  { subst w2. destruct timestamp; auto. }
  destruct Hw2 as (Hs2 & Hc2 & Ht2).
  unfold verify_outcome, Spec.contextual_checks, Spec.first_failure.
  destruct (Spec.differs domain_arg _);
    [|destruct (Spec.differs nonce_arg _);
      [|destruct (Spec.expired _ _) as [[|]|];
        [|destruct (Spec.not_yet_valid _ _) as [[|]|]|]]];
    cbn [fst snd];
    try (destruct (emits_keeps (firstn 1
           [Checked CkDomain; Checked CkNonce; Checked CkExpiration;
            Checked CkNotBefore]) w2) as (-> & -> & ->); auto);
    try (destruct (emits_keeps (firstn 2
           [Checked CkDomain; Checked CkNonce; Checked CkExpiration;
            Checked CkNotBefore]) w2) as (-> & -> & ->); auto);
    try (destruct (emits_keeps (firstn 3
           [Checked CkDomain; Checked CkNonce; Checked CkExpiration;
            Checked CkNotBefore]) w2) as (-> & -> & ->); auto);
    try (destruct (emits_keeps
           [Checked CkDomain; Checked CkNonce; Checked CkExpiration;
            Checked CkNotBefore] w2) as (-> & -> & ->); auto).
  rewrite signature_stage_run. unfold signature_outcome.
  pose proof (fun es => emits_keeps es
                (emits [Checked CkDomain; Checked CkNonce;
                        Checked CkExpiration; Checked CkNotBefore] w2)) as K.
  destruct (emits_keeps
              [Checked CkDomain; Checked CkNonce; Checked CkExpiration;
               Checked CkNotBefore] w2) as (K1 & K2 & K3).
  destruct (Base58.b58decode (address (self w1))) as [key|]; cbn [fst snd];
    [destruct (List.length key =? 32)%nat; cbn [fst snd];
     [destruct (Base58.b58decode signature) as [sb|]; cbn [fst snd]|]|];
    (split; [reflexivity|]);
    match goal with
    | |- context [emits ?es (emits ?cs w2)] =>
        destruct (K es) as (-> & -> & ->)
    end;
    rewrite K1, K2, K3; auto.
Qed.

Lemma signature_outcome_Ok (addr signature : string) (message : list byte) :
  signature_outcome addr signature message = Ok tt <->
  exists key sb,
    Base58.b58decode addr = Some key /\ List.length key = 32%nat
    /\ Base58.b58decode signature = Some sb /\ List.length sb = 64%nat
    /\ crypto_sign_open key message sb = true.
Proof.
  unfold signature_outcome. split.
  - destruct (Base58.b58decode addr) as [key|]; [|discriminate].
    destruct (Nat.eqb_spec (List.length key) 32); [|discriminate].
    destruct (Base58.b58decode signature) as [sb|]; [|discriminate].
    destruct (Nat.eqb_spec (List.length sb) 64); [|discriminate].
    destruct (crypto_sign_open key message sb) eqn:E; [|discriminate].
    intros _. exists key, sb. auto.
  - intros (key & sb & -> & Hk & -> & Hs & Hv).
    now rewrite Hk, Hs, Hv.
Qed.

Lemma signature_outcome_Invalid (addr signature : string)
      (message : list byte) :
  signature_outcome addr signature message = Raise InvalidSignature <->
  exists key sb,
    Base58.b58decode addr = Some key /\ List.length key = 32%nat
    /\ Base58.b58decode signature = Some sb /\ List.length sb = 64%nat
    /\ crypto_sign_open key message sb = false.
Proof.
  unfold signature_outcome. split.
  - destruct (Base58.b58decode addr) as [key|]; [|discriminate].
    destruct (Nat.eqb_spec (List.length key) 32); [|discriminate].
    destruct (Base58.b58decode signature) as [sb|]; [|discriminate].
    destruct (Nat.eqb_spec (List.length sb) 64); [|discriminate].
    destruct (crypto_sign_open key message sb) eqn:E; [discriminate|].
    intros _. exists key, sb. auto.
  - intros (key & sb & -> & Hk & -> & Hs & Hv).
    now rewrite Hk, Hs, Hv.
Qed.

(** All four contextual checks pass. *)
Lemma first_failure_None (domain_arg nonce_arg : option string)
      (vt : datetime) (m : SiwsMessage) :
  snd (Spec.first_failure
         (Spec.contextual_checks domain_arg nonce_arg vt m)) = None <->
  Spec.differs domain_arg (domain m) = false
  /\ Spec.differs nonce_arg (nonce m) = false
  /\ expiration_time m = None
  /\ match not_before m with
     | Some T => datetime_le vt (date T) = Ok false
     | None => True
     end.
Proof.
  unfold Spec.contextual_checks, Spec.first_failure.
  rewrite expired_run. unfold Spec.not_yet_valid.
  destruct (Spec.differs domain_arg _);
    [cbn; split; [discriminate | intros (? & _); discriminate]|].
  destruct (Spec.differs nonce_arg _);
    [cbn; split; [discriminate | intros (_ & ? & _); discriminate]|].
  destruct (expiration_time m);
    [cbn; split; [discriminate | intros (_ & _ & ? & _); discriminate]|].
  destruct (not_before m) as [T|]; [|cbn; tauto].
  destruct (datetime_le vt (date T)) as [[|]|]; cbn;
    (split; [try discriminate; auto | intros (_ & _ & _ & H)];
     try discriminate H; reflexivity).
Qed.

(** X10: [verify] returns normally exactly when the expected domain and
    nonce do not differ, the message has no [expiration_time], its
    [not_before], if set, compares as earlier than the verification time,
    the address decodes to 32 bytes, the signature decodes to 64 bytes,
    and the primitive accepts the signature for that key over the UTF-8
    bytes of the text that [prepare_message] returns. *)
Theorem verify_succeeds_iff :
  forall (signature : string) (domain_arg nonce_arg : option string)
         (timestamp : option datetime) (w : World),
    let vt := Spec.verification_time timestamp (snd (prepare_message w)) in
    fst (verify signature domain_arg nonce_arg timestamp w) = Ok tt <->
    (Spec.differs domain_arg (domain (self w)) = false
     /\ Spec.differs nonce_arg (nonce (self w)) = false
     /\ expiration_time (self w) = None
     /\ match not_before (self w) with
        | Some T => datetime_le vt (date T) = Ok false
        | None => True
        end)
    /\ exists key sb,
        Base58.b58decode (address (self w)) = Some key
        /\ List.length key = 32%nat
        /\ Base58.b58decode signature = Some sb
        /\ List.length sb = 64%nat
        /\ crypto_sign_open key (Py.encode (fst (prepare_message w))) sb
           = true.
Proof.
  intros signature domain_arg nonce_arg timestamp w vt.
  rewrite (proj1 (verify_result signature domain_arg nonce_arg timestamp w)).
  fold vt. rewrite <- first_failure_None. unfold verify_outcome.
  destruct (snd (Spec.first_failure _)) as [e|].
  - split; [discriminate | intros [? _]; discriminate].
  - rewrite signature_outcome_Ok. tauto.
Qed.

(** X11: [verify] raises [InvalidSignature] exactly when the expected
    domain and nonce do not differ, the message has no [expiration_time],
    its [not_before], if set, compares as earlier than the verification
    time, address and signature decode to 32 and 64 bytes, and the
    primitive rejects the signature: a text that does not decode, or
    decodes to another length, never gives [InvalidSignature]. *)
Theorem invalid_signature_iff :
  forall (signature : string) (domain_arg nonce_arg : option string)
         (timestamp : option datetime) (w : World),
    let vt := Spec.verification_time timestamp (snd (prepare_message w)) in
    fst (verify signature domain_arg nonce_arg timestamp w)
    = Raise InvalidSignature <->
    (Spec.differs domain_arg (domain (self w)) = false
     /\ Spec.differs nonce_arg (nonce (self w)) = false
     /\ expiration_time (self w) = None
     /\ match not_before (self w) with
        | Some T => datetime_le vt (date T) = Ok false
        | None => True
        end)
    /\ exists key sb,
        Base58.b58decode (address (self w)) = Some key
        /\ List.length key = 32%nat
        /\ Base58.b58decode signature = Some sb
        /\ List.length sb = 64%nat
        /\ crypto_sign_open key (Py.encode (fst (prepare_message w))) sb
           = false.
Proof.
  intros signature domain_arg nonce_arg timestamp w vt.
  rewrite (proj1 (verify_result signature domain_arg nonce_arg timestamp w)).
  fold vt. rewrite <- first_failure_None. unfold verify_outcome.
  destruct (snd (Spec.first_failure _)) as [e|] eqn:E.
  - split; [|intros [? _]; discriminate].
    intros [= ->]. apply first_failure_errors in E.
    destruct E as [E | [E | [E | [E | E]]]]; discriminate E.
  - rewrite signature_outcome_Invalid. tauto.
Qed.

(** X13: whatever its outcome, [verify] changes the message no more than
    [prepare_message] does: a message whose [issued_at] is set is left as
    it is, and one whose [issued_at] is unset has it filled with the text
    of the clock reading, all other fields unchanged. *)
Theorem verify_changes_only_issued_at :
  forall (signature : string) (domain_arg nonce_arg : option string)
         (timestamp : option datetime) (w : World),
    let w' := snd (verify signature domain_arg nonce_arg timestamp w) in
    self w' = self (snd (prepare_message w))
    /\ Spec.same_except_issued_at (self w) (self w')
    /\ match issued_at (self w) with
       | Some _ => self w' = self w
       | None => issued_at (self w')
                 = Some (IssuedStr (isoformat (clock w (ticks w))))
       end.
Proof.
  intros signature domain_arg nonce_arg timestamp w w'.
  destruct (verify_result signature domain_arg nonce_arg timestamp w)
    as (_ & Hs & _).
  fold w' in Hs. rewrite Hs.
  split; [reflexivity|]. split; [apply prepare_message_frame|].
  rewrite prepare_message_state.
  destruct (issued_at (self w)); reflexivity.
Qed.

(** X14: [verify] reads the clock once when the message has no
    [issued_at] and once when no timestamp is passed, and not otherwise;
    with [issued_at] set and a timestamp passed its outcome is the same
    under every clock. *)
Theorem verify_reads_clock_only_when_needed :
  forall (signature : string) (domain_arg nonce_arg : option string)
         (timestamp : option datetime) (w : World),
    ticks (snd (verify signature domain_arg nonce_arg timestamp w))
    = (ticks w
       + (if Canon.is_none (issued_at (self w)) then 1 else 0)
       + (if Canon.is_none timestamp then 1 else 0))%nat
    /\ (Canon.is_none (issued_at (self w)) || Canon.is_none timestamp = false ->
        forall clk,
          fst (verify signature domain_arg nonce_arg timestamp (set_clock w clk))
          = fst (verify signature domain_arg nonce_arg timestamp w)).
Proof.
  intros signature domain_arg nonce_arg timestamp w. split.
  - destruct (verify_result signature domain_arg nonce_arg timestamp w)
      as (_ & _ & _ & ->).
    rewrite prepare_message_state.
    destruct (issued_at (self w)), timestamp; cbn; lia.
  - intros H clk.
    rewrite (proj1 (verify_result _ _ _ _ (set_clock w clk))).
    rewrite (proj1 (verify_result _ _ _ _ w)).
    rewrite !prepare_message_layout, !prepare_message_state.
    destruct (issued_at (self w)) eqn:E; [|discriminate H].
    destruct timestamp as [t|]; [|rewrite orb_true_r in H; discriminate H].
    cbn [set_clock self]. rewrite E. reflexivity.
Qed.

(** X15: an expected domain that is [None], empty, or the domain of the
    message, and an expected nonce that is [None], empty, or the nonce
    of the message, change nothing: [verify] behaves as when neither is
    passed. *)
Theorem matching_or_empty_expectations_are_ignored :
  forall (signature : string) (domain_arg nonce_arg : option string)
         (timestamp : option datetime) (w : World),
    domain_arg = None \/ domain_arg = Some ""
    \/ domain_arg = Some (domain (self w)) ->
    nonce_arg = None \/ nonce_arg = Some ""
    \/ nonce_arg = Some (nonce (self w)) ->
    verify signature domain_arg nonce_arg timestamp w
    = verify signature None None timestamp w.
Proof.
  intros signature domain_arg nonce_arg timestamp w Hd Hn.
  rewrite !verify_run.
  destruct (prepare_message_frame w) as (Ed & _ & _ & _ & _ & En & _).
  rewrite Ed, En.
  assert (Fd : Spec.differs domain_arg (domain (self w)) = false).
  { destruct Hd as [-> | [-> | ->]]; try reflexivity.
    unfold Spec.differs. now rewrite String.eqb_refl, andb_false_r. }
  assert (Fn : Spec.differs nonce_arg (nonce (self w)) = false).
  { destruct Hn as [-> | [-> | ->]]; try reflexivity.
    unfold Spec.differs. now rewrite String.eqb_refl, andb_false_r. }
  rewrite Fd, Fn. reflexivity.
Qed.

(** X16: with a timestamp passed, verifying again gives the same
    outcome: the first call leaves the message in a state that
    serializes to the same text. *)
Theorem verify_is_repeatable :
  forall (signature : string) (domain_arg nonce_arg : option string)
         (t : datetime) (w : World),
    let w' := snd (verify signature domain_arg nonce_arg (Some t) w) in
    fst (verify signature domain_arg nonce_arg (Some t) w')
    = fst (verify signature domain_arg nonce_arg (Some t) w).
Proof.
  intros signature domain_arg nonce_arg t w w'.
  destruct (verify_result signature domain_arg nonce_arg (Some t) w)
    as (Hr & Hs & _).
  fold w' in Hs.
  rewrite (proj1 (verify_result _ _ _ _ w')), Hr.
  cbn [Spec.verification_time].
  rewrite (verify_outcome_frame _ _ _ _ (self w) (self w')).
  - f_equal.
    assert (Hw' : self (snd (prepare_message w')) = self w').
    { rewrite prepare_message_state.
      pose proof (prepare_message_sets_issued_at w) as Hset.
      rewrite <- Hs in Hset.
      destruct (issued_at (self w')); [reflexivity | congruence]. }
    now rewrite !prepare_message_layout, Hw', Hs.
  - rewrite Hs. apply prepare_message_frame.
Qed.

End Outcomes.

(* ================================================================== *)
(** ** A constructed message, serialized and verified *)

Section Lifecycle.
Context {C : Collaborators}.

Lemma init_Ok_fields (message : py_value) (abnf : bool) (m : SiwsMessage) :
  SiwsMessage_init message abnf = Ok m -> exists d, BaseModel_init d = Ok m.
Proof.
  intros H. destruct message; simpl in H; try discriminate; [|eauto].
  destruct (if abnf then ABNFParsedMessage s else RegExpParsedMessage s);
    [eauto | discriminate].
Qed.

(** X17: a message that comes from the constructor has its [issued_at],
    so neither [prepare_message] nor [verify] ever changes it or reads
    the clock for it: the default-fill is for messages whose [issued_at]
    was unset after construction. *)
Theorem constructed_message_is_never_changed :
  forall (message : py_value) (abnf : bool) (m : SiwsMessage) (w : World),
    SiwsMessage_init message abnf = Ok m ->
    self w = m ->
    snd (prepare_message w) = w
    /\ forall signature domain_arg nonce_arg timestamp,
        self (snd (verify signature domain_arg nonce_arg timestamp w)) = m.
Proof.
  intros message abnf m w H Hw.
  apply init_Ok_fields in H as (d & H).
  apply BaseModel_init_Ok in H as (_ & _ & _ & _ & _ & (c & Hiss & _) & _).
  assert (Hp : snd (prepare_message w) = w).
  { rewrite prepare_message_state, Hw, Hiss. reflexivity. }
  split; [exact Hp|].
  intros signature domain_arg nonce_arg timestamp.
  destruct (verify_result signature domain_arg nonce_arg timestamp w)
    as (_ & -> & _).
  now rewrite Hp.
Qed.

End Lifecycle.

(* ================================================================== *)
(** ** The further properties at the sample values *)

(** A statement of two lines, and one of a single line. *)
Lemma statement_pattern_enforced_witness :
  SiwsMessage_init (PyDict (with_statement Sample.fields
                              (Some ("Sign in" ++ Py.nl ++ "now")))) true
  = Raise (ValidationError [(f_statement, string_pattern_mismatch)])
  /\ SiwsMessage_init (PyDict (with_statement Sample.fields (Some "Sign in")))
       true
     = Ok (set_statement Sample.message (Some "Sign in")).
Proof.
  split.
  - apply (statement_pattern_enforced (C := Sample.collaborators)
             Sample.fields Sample.message
             (Some ("Sign in" ++ Py.nl ++ "now")) true eq_refl).
  - apply (statement_pattern_enforced (C := Sample.collaborators)
             Sample.fields Sample.message (Some "Sign in") true eq_refl).
Defined.

(** The chain ids -1 and 0. *)
Lemma chain_id_non_negative_witness :
  SiwsMessage_init (PyDict (with_chain_id Sample.fields (-1))) true
  = Raise (ValidationError [(f_chain_id, greater_than_equal)])
  /\ SiwsMessage_init (PyDict (with_chain_id Sample.fields 0)) true
     = Ok (set_chain_id Sample.message 0).
Proof.
  split.
  - apply (chain_id_non_negative (C := Sample.collaborators)
             Sample.fields Sample.message (-1) true eq_refl).
  - apply (chain_id_non_negative (C := Sample.collaborators)
             Sample.fields Sample.message 0 true eq_refl).
Defined.

(** No resource, a resource that is no URL, and one that is. *)
Lemma resources_validated_witness :
  SiwsMessage_init (PyDict (with_resources Sample.fields (Some []))) true
  = Raise (ValidationError [(f_resources, too_short)])
  /\ SiwsMessage_init
       (PyDict (with_resources Sample.fields (Some ["no url"; "https://a"])))
       true
     = Raise (ValidationError [(f_resources, url_parsing)])
  /\ SiwsMessage_init
       (PyDict (with_resources Sample.fields (Some ["https://a"]))) true
     = Ok (set_resources Sample.message (Some ["https://a"])).
Proof.
  split; [|split].
  - apply (resources_validated (C := Sample.collaborators)
             Sample.fields Sample.message (Some []) true eq_refl).
  - apply (resources_validated (C := Sample.collaborators)
             Sample.fields Sample.message
             (Some ["no url"; "https://a"]) true eq_refl).
  - apply (resources_validated (C := Sample.collaborators)
             Sample.fields Sample.message (Some ["https://a"]) true eq_refl).
Defined.

Lemma constructed_message_is_valid_witness :
  SiwsMessage_init (C := Sample.collaborators) (PyDict Sample.fields) true
  = Ok Sample.message
  /\ (8 <= String.length (nonce Sample.message))%nat.
Proof.
  split; [reflexivity|].
  apply (constructed_message_is_valid (C := Sample.collaborators)
           (PyDict Sample.fields) true Sample.message eq_refl).
Defined.

Lemma construction_keeps_texts_witness :
  SiwsMessage_init (C := Sample.collaborators) (PyDict Sample.fields) true
  = Ok Sample.message
  /\ raw_uri Sample.fields = Some (uri Sample.message).
Proof.
  split; [reflexivity|].
  apply (construction_keeps_texts (C := Sample.collaborators)
           Sample.fields true Sample.message eq_refl).
Defined.

(** A mapping without a nonce. *)
Lemma missing_required_key_witness :
  In f_nonce Canon.required_fields
  /\ Canon.absent f_nonce MoreSamples.fields_without_nonce = true
  /\ exists es,
      SiwsMessage_init (C := Sample.collaborators)
        (PyDict MoreSamples.fields_without_nonce) true
      = Raise (ValidationError es)
      /\ In (f_nonce, missing) es.
Proof.
  assert (H : In f_nonce Canon.required_fields) by (simpl; tauto).
  split; [exact H|]. split; [reflexivity|].
  exact (missing_required_key (C := Sample.collaborators)
           MoreSamples.fields_without_nonce f_nonce true H eq_refl).
Defined.

Lemma serialized_line_by_line_witness :
  Canon.one_line_fields (self (Sample.world Sample.full_message)) = true
  /\ Py.split_lines (fst (prepare_message (Sample.world Sample.full_message)))
     = Canon.lines
         (self (snd (prepare_message (Sample.world Sample.full_message)))).
Proof.
  split; [reflexivity|].
  apply (serialized_line_by_line (Sample.world Sample.full_message) eq_refl).
Defined.

(** The full sample message, with chain id 0 and with chain id 1. *)
Lemma serialization_determines_fields_witness :
  fst (prepare_message (Sample.world Sample.full_message))
  = fst (prepare_message
           (Sample.world (set_chain_id Sample.full_message 1)))
  /\ Canon.rendered
       (self (snd (prepare_message (Sample.world Sample.full_message))))
     = Canon.rendered
         (self (snd (prepare_message
                       (Sample.world (set_chain_id Sample.full_message 1))))).
Proof.
  split; [reflexivity|].
  apply (serialization_determines_fields
           (Sample.world Sample.full_message)
           (Sample.world (set_chain_id Sample.full_message 1))
           eq_refl eq_refl eq_refl).
Defined.

(** An empty expected domain and the nonce of the message. *)
Lemma matching_or_empty_expectations_are_ignored_witness :
  verify (C := Sample.collaborators) "11" (Some "") (Some "abcdefgh")
    (Some Sample.noon) Sample.good
  = verify (C := Sample.collaborators) "11" None None
      (Some Sample.noon) Sample.good.
Proof.
  apply (matching_or_empty_expectations_are_ignored
           (C := Sample.collaborators) "11" (Some "") (Some "abcdefgh")
           (Some Sample.noon) Sample.good).
  - right. left. reflexivity.
  - right. right. reflexivity.
Defined.

Lemma constructed_message_is_never_changed_witness :
  SiwsMessage_init (C := Sample.collaborators) (PyDict Sample.fields) true
  = Ok Sample.message
  /\ snd (prepare_message (Sample.world Sample.message))
     = Sample.world Sample.message.
Proof.
  split; [reflexivity|].
  apply (constructed_message_is_never_changed (C := Sample.collaborators)
           (PyDict Sample.fields) true Sample.message
           (Sample.world Sample.message) eq_refl eq_refl).
Defined.
